(** * Metrics-Collector: a shallow embedding of [metric_collector/collector.py]

    The Python class [MetricCollector] is modelled as follows.
    - Python values reachable from a metrics snapshot (dicts, lists,
      strings, ints, floats, booleans, [None]) are the inductive [pyval];
      dicts keep their insertion order as association lists with string
      keys (all dicts of the snapshot have string keys).
    - A Python float is an IEEE 754 binary64 number, held as its exact
      rational value [Q]; the float operations of the collector round
      their exact result to binary64 ([fl]); [round(x, 2)] and the [:.1f]
      format round half to even on the exact value of the float.
    - Every exception the code can see is an [Exception] subclass, the
      record [exn] with its class and its [str(e)].  Fallible code returns
      [Exc A] (a value or a raised exception).
    - The instance state [self.alert_cooldown] is a [gmap] threaded
      explicitly; logging, sleeping and I/O are recorded as [event]s.
    - [psutil] (and [os] reached through it) is a [provider] record: one
      value or raised exception per call the code makes. *)

From Stdlib Require Import QArith Qpower Qabs Qround ZArith String List Bool Lia Lqa Sorted Permutation.
From stdpp Require Import base gmap strings pretty.

Open Scope string_scope.
Local Set Warnings "-register-all".

(* ------------------------------------------------------------------ *)
(** ** Exceptions and the exception monad *)

Inductive exn_class :=
| OSError                (** [OSError] and its subclasses other than below *)
| PermissionError        (** subclass of [OSError] *)
| NoSuchProcess          (** [psutil.NoSuchProcess] *)
| AccessDenied           (** [psutil.AccessDenied] *)
| TypeError
| KeyError
| AttributeError
| ValueError
| ReqTimeout             (** [requests.exceptions.Timeout] *)
| ReqConnectionError     (** [requests.exceptions.ConnectionError] *)
| ReqHTTPError           (** [requests.exceptions.HTTPError] *)
| OtherException (name : string).

Record exn := mkExn { exn_cls : exn_class; exn_msg : string }.

(** [type(e).__name__] *)
Definition exn_class_name (c : exn_class) : string :=
  match c with
  | OSError => "OSError"
  | PermissionError => "PermissionError"
  | NoSuchProcess => "NoSuchProcess"
  | AccessDenied => "AccessDenied"
  | TypeError => "TypeError"
  | KeyError => "KeyError"
  | AttributeError => "AttributeError"
  | ValueError => "ValueError"
  | ReqTimeout => "Timeout"
  | ReqConnectionError => "ConnectionError"
  | ReqHTTPError => "HTTPError"
  | OtherException n => n
  end.

(** [except (PermissionError, OSError)] *)
Definition is_oserror (c : exn_class) : bool :=
  match c with OSError | PermissionError => true | _ => false end.

(** [except (psutil.NoSuchProcess, psutil.AccessDenied)] *)
Definition is_proc_gone (c : exn_class) : bool :=
  match c with NoSuchProcess | AccessDenied => true | _ => false end.

Inductive Exc (A : Type) : Type :=
| Ok (a : A)
| Raise (e : exn).
Arguments Ok {A} a.
Arguments Raise {A} e.

Definition exc_bind {A B} (m : Exc A) (k : A -> Exc B) : Exc B :=
  match m with Ok a => k a | Raise e => Raise e end.

Notation "'let!' x := m 'in' k" := (exc_bind m (fun x => k))
  (at level 200, x name, m at level 100, k at level 200).

Definition raise_ {A} (c : exn_class) (msg : string) : Exc A :=
  Raise (mkExn c msg).

(* ------------------------------------------------------------------ *)
(** ** Python values *)

Inductive pyval :=
| PNone
| PBool (b : bool)
| PInt (z : Z)
| PFloat (q : Q)
| PStr (s : string)
| PList (l : list pyval)
| PDict (d : list (string * pyval)).

Definition dict := list (string * pyval).

(** [k in d] / [d.get(k)] on a dict *)
Fixpoint dict_get (d : dict) (k : string) : option pyval :=
  match d with
  | [] => None
  | (k', v) :: d' => if String.eqb k k' then Some v else dict_get d' k
  end.

Definition dict_has (d : dict) (k : string) : bool :=
  match dict_get d k with Some _ => true | None => false end.

(** [d.get(k, default)] *)
Definition dict_get_default (d : dict) (k : string) (default : pyval) : pyval :=
  match dict_get d k with Some v => v | None => default end.

(** [d[k]] *)
Definition dict_index (d : dict) (k : string) : Exc pyval :=
  match dict_get d k with Some v => Ok v | None => raise_ KeyError k end.

(** [d[k] = v]: overwrite in place, or append a new key at the end *)
Fixpoint dict_set (d : dict) (k : string) (v : pyval) : dict :=
  match d with
  | [] => [(k, v)]
  | (k', v') :: d' =>
      if String.eqb k k' then (k', v) :: d' else (k', v') :: dict_set d' k v
  end.

(** Python truthiness, [bool(v)] *)
Definition truthy (v : pyval) : bool :=
  match v with
  | PNone => false
  | PBool b => b
  | PInt z => negb (Z.eqb z 0)
  | PFloat q => negb (Qeq_bool q 0)
  | PStr s => negb (String.eqb s "")
  | PList l => negb (Nat.eqb (length l) 0)
  | PDict d => negb (Nat.eqb (length d) 0)
  end.

(** The numeric value of a [bool], [int] or [float]. *)
Definition py_num (v : pyval) : option Q :=
  match v with
  | PBool b => Some (if b then 1 else 0)%Q
  | PInt z => Some (inject_Z z)
  | PFloat q => Some q
  | _ => None
  end.

(** [x < y] on rationals *)
Definition Qlt_bool (x y : Q) : bool := negb (Qle_bool y x).

(** Thresholds are numeric (an [int] or a [float] read from the YAML). *)
Inductive num := NInt (z : Z) | NFloat (q : Q).

Definition num_val (n : num) : Q :=
  match n with NInt z => inject_Z z | NFloat q => q end.

(** [a > b] for a value [a] against a numeric [b]; anything but a number
    on the left raises [TypeError]. *)
Definition py_gt (a : pyval) (b : num) : Exc bool :=
  match py_num a with
  | Some x => Ok (Qlt_bool (num_val b) x)
  | None => raise_ TypeError "'>' not supported"
  end.

(* ------------------------------------------------------------------ *)
(** ** Rounding and formatting of numbers *)

(** Round half to even to an integer. *)
Definition round_half_even (x : Q) : Z :=
  let f := Qfloor x in
  let r := (x - inject_Z f)%Q in
  if Qlt_bool r (1 # 2) then f
  else if Qlt_bool (1 # 2) r then (f + 1)%Z
  else if Z.even f then f else (f + 1)%Z.

(** *** Python floats

    A Python float is an IEEE 754 binary64 number; the model holds it as
    its exact rational value.  The arithmetic the collector does on floats
    rounds each exact result to the nearest binary64 number, ties to even.
    The magnitudes the collector handles (byte counts of at most 2^128,
    percentages, milliseconds) stay far below 2^1024, where binary64
    overflows, so the rounding below has no upper exponent bound. *)

(** [2^k] for an integer [k]. *)
Definition pow2 (k : Z) : Q := Qpower (inject_Z 2) k.

(** The [e] with [2^e <= a < 2^(e+1)], for [a > 0]: the numerator and
    denominator bit lengths give it up to one. *)
Definition floor_log2 (a : Q) : Z :=
  let t := (Z.log2 (Qnum a) - Z.log2 (Zpos (Qden a)))%Z in
  if Qle_bool (pow2 t) a then t else (t - 1)%Z.

(** The binary64 number nearest to [x], ties to even: [x] rounded to a
    multiple of [2^k], where [2^k] is the weight of the last of the 53
    significant bits of [x], or of the smallest subnormal [2^-1074]. *)
Definition fl (x : Q) : Q :=
  if Qeq_bool x 0 then 0 else
  let k := Z.max (floor_log2 (Qabs x) - 52) (-1074) in
  Qred (inject_Z (round_half_even (x / pow2 k)) * pow2 k).

(** [a / b] on two Python ints ([b <> 0]): the correctly rounded quotient. *)
Definition int_truediv (a b : Z) : Q := fl (inject_Z a / inject_Z b).

(** [x * y] on floats (an int operand converted exactly). *)
Definition float_mul (x y : Q) : Q := fl (x * y).

(** [round(x, 2)] on a float [x] (CPython's [double_round]): [x] is
    rounded to two decimal places on its exact value, ties to even (the
    correctly rounded [_Py_dg_dtoa] in mode 3), and the decimal string is
    read back as the nearest float ([_Py_dg_strtod]). *)
Definition round2 (x : Q) : Q := fl (Qmake (round_half_even (x * 100)) 100).

Definition digit_char (n : Z) : string := pretty (Z.to_N n).

(** [format(x, '.1f')] *)
Definition fmt_1f (x : Q) : string :=
  let n := round_half_even (x * 10) in
  let a := Z.abs n in
  (if Qlt_bool x 0 then "-" else "") ++
  pretty (Z.to_N (a / 10)) ++ "." ++ digit_char (a mod 10).

(** Fractional digits of [x] (with [0 <= x < 1]), at most [fuel] of them. *)
Fixpoint frac_digits (fuel : nat) (x : Q) : list Z :=
  match fuel with
  | O => []
  | S fuel' =>
      let y := (x * 10)%Q in
      let d := Qfloor y in
      d :: frac_digits fuel' (y - inject_Z d)%Q
  end.

Fixpoint drop_trailing_zeros (ds : list Z) : list Z :=
  match ds with
  | [] => []
  | d :: ds' =>
      match drop_trailing_zeros ds' with
      | [] => if Z.eqb d 0 then [] else [d]
      | t => d :: t
      end
  end.

(** [repr(x)] of a float in fixed notation: the decimal expansion with
    trailing zeros dropped and at least one fractional digit (the short
    round-trip form of the float whose exact value is [x]). *)
Definition float_repr (x : Q) : string :=
  let a := Qabs x in
  let ip := Qfloor a in
  let ds := drop_trailing_zeros (frac_digits 17 (a - inject_Z ip)%Q) in
  (if Qlt_bool x 0 then "-" else "") ++ pretty (Z.to_N ip) ++ "." ++
  match ds with
  | [] => "0"
  | _ => String.concat "" (map digit_char ds)
  end.

(** [repr(v)]; string contents are written between single quotes without
    escaping. *)
Fixpoint py_repr (v : pyval) : string :=
  match v with
  | PNone => "None"
  | PBool b => if b then "True" else "False"
  | PInt z => pretty z
  | PFloat q => float_repr q
  | PStr s => "'" ++ s ++ "'"
  | PList l =>
      "[" ++ String.concat ", " (map py_repr l) ++ "]"
  | PDict d =>
      "{" ++ String.concat ", "
        (map (fun kv => "'" ++ fst kv ++ "': " ++ py_repr (snd kv)) d) ++ "}"
  end.

(** [str(v)], i.e. [f"{v}"] *)
Definition py_str (v : pyval) : string :=
  match v with PStr s => s | _ => py_repr v end.

Definition num_str (n : num) : string :=
  match n with NInt z => pretty z | NFloat q => float_repr q end.

(* ------------------------------------------------------------------ *)
(** ** Configuration (the loaded [config.yaml]) *)

(** The values the code reads from [self.config], with the defaults of
    [_load_config] and of the [.get(key, default)] calls applied. *)
Record config := {
  endpoint_url : string;                  (** [endpoint.url] *)
  endpoint_timeout : Q;                   (** [endpoint.timeout], default 10 *)
  max_retries : Z;                        (** [endpoint.max_retries], default 3 *)
  retry_delay : Q;                        (** [endpoint.retry_delay], default 5 *)
  thresholds : list (string * num);       (** [thresholds] *)
  alerts_enabled : bool;                  (** truthiness of [alerts.enabled], default True *)
  cooldown_minutes : Q;                   (** [alerts.cooldown_minutes], default 5 *)
  alert_channels : list string;           (** [alerts.channels], default ['log'] *)
  slack_webhook_url : option string;      (** [alerts.slack_webhook_url], [None] when falsy *)
  include_network : bool;                 (** [metrics.include_network], default True *)
  include_processes : bool                (** [metrics.include_processes], default False *)
}.

Fixpoint threshold_get (t : list (string * num)) (k : string) : option num :=
  match t with
  | [] => None
  | (k', v) :: t' => if String.eqb k k' then Some v else threshold_get t' k
  end.

(* ------------------------------------------------------------------ *)
(** ** The metrics provider ([psutil], [os]) *)

Record vmem := {
  vm_total : Z; vm_used : Z; vm_free : Z; vm_available : Z; vm_percent : Q;
  vm_buffers : option Z; vm_cached : option Z; vm_shared : option Z
}.

Record swapmem := { sw_total : Z; sw_used : Z; sw_free : Z; sw_percent : Q }.

Record partition := {
  pt_device : string; pt_mountpoint : string; pt_fstype : string;
  pt_opts : option string
}.

Record usage := {
  du_total : Z; du_used : Z; du_free : Z;
  du_inodes_total : option Z; du_inodes_used : option Z; du_inodes_free : option Z
}.

Record diskio := {
  io_read_count : Z; io_write_count : Z; io_read_bytes : Z;
  io_write_bytes : Z; io_read_time : Z; io_write_time : Z
}.

Record netio := {
  net_bytes_sent : Z; net_bytes_recv : Z; net_packets_sent : Z;
  net_packets_recv : Z; net_errin : Z; net_errout : Z; net_dropin : Z;
  net_dropout : Z
}.

(** What the provider answers during one call of [collect_metrics]:
    a value or a raised exception per call.  [None] in [p_loadavg] and
    [p_cpu_stats] stands for the [hasattr] test failing; [None] in
    [p_disk_io] for [disk_io_counters()] returning [None].  The clock
    readings are the wall-clock time stamp and the elapsed milliseconds. *)
Record provider := {
  p_uname : Exc string;                       (** [psutil.os.uname().nodename] *)
  p_utcnow : string;                          (** [datetime.utcnow().isoformat() + "Z"] *)
  p_elapsed_ms : Q;                           (** the float [(time.time() - start_time) * 1000] *)
  p_cpu_percpu : Exc (list Q);                (** [cpu_percent(interval=1, percpu=True)] *)
  p_cpu_overall : Exc Q;                      (** [cpu_percent(interval=0)] *)
  p_cpu_count_physical : Exc (option Z);      (** [cpu_count(logical=False)] *)
  p_cpu_count_logical : Exc (option Z);       (** [cpu_count(logical=True)] *)
  p_loadavg : Exc (option (list Q));          (** [os.getloadavg()] *)
  p_cpu_times : Exc (list (string * Q));      (** [cpu_times()._asdict()] *)
  p_cpu_stats : Exc (option (list (string * Z)));  (** [cpu_stats()._asdict()] *)
  p_virtual_memory : Exc vmem;
  p_swap_memory : Exc swapmem;
  p_disk_partitions : Exc (list partition);
  p_disk_usage : string -> Exc usage;         (** [disk_usage(mountpoint)] *)
  p_disk_io : Exc (option diskio);
  p_net_io : Exc netio;
  p_process_iter : Exc (list (Exc dict))      (** [proc.info] of each process *)
}.

(* ------------------------------------------------------------------ *)
(** ** [collect_metrics] *)

Definition opt_int (o : option Z) : pyval :=
  match o with Some z => PInt z | None => PNone end.

(** [getattr(obj, name, 0)] *)
Definition int_or_0 (o : option Z) : Z :=
  match o with Some z => z | None => 0%Z end.

(** [round(b / (1024**3), 2)] *)
Definition gb (b : Z) : Q := round2 (int_truediv b (1024 ^ 3)).

(** [round(b / (1024**3), 2) if b > 0 else 0] *)
Definition gb_if_pos (b : Z) : pyval :=
  if Z.ltb 0 b then PFloat (gb b) else PInt 0.

Definition cpu_data_of (overall : Q) (per_core : list Q) (phys logical : option Z)
    (la : option (list Q)) (times : list (string * Q))
    (stats : option (list (string * Z))) : pyval :=
  PDict [("overall_percent", PFloat overall);
         ("per_core_percent", PList (map PFloat per_core));
         ("core_count_physical", opt_int phys);
         ("core_count_logical", opt_int logical);
         ("load_average",
            match la with Some l => PList (map PFloat l) | None => PNone end);
         ("cpu_times", PDict (map (fun kv => (fst kv, PFloat (snd kv))) times));
         ("cpu_stats",
            match stats with
            | Some d => PDict (map (fun kv => (fst kv, PInt (snd kv))) d)
            | None => PNone
            end)].

Definition memory_data_of (m : vmem) : pyval :=
  PDict [("total_bytes", PInt (vm_total m));
         ("used_bytes", PInt (vm_used m));
         ("free_bytes", PInt (vm_free m));
         ("available_bytes", PInt (vm_available m));
         ("percent_used", PFloat (vm_percent m));
         ("buffers_bytes", PInt (int_or_0 (vm_buffers m)));
         ("cached_bytes", PInt (int_or_0 (vm_cached m)));
         ("shared_bytes", PInt (int_or_0 (vm_shared m)));
         ("total_gb", PFloat (gb (vm_total m)));
         ("used_gb", PFloat (gb (vm_used m)));
         ("free_gb", PFloat (gb (vm_free m)));
         ("available_gb", PFloat (gb (vm_available m)))].

Definition swap_data_of (s : swapmem) : pyval :=
  PDict [("total_bytes", PInt (sw_total s));
         ("used_bytes", PInt (sw_used s));
         ("free_bytes", PInt (sw_free s));
         ("percent_used", PFloat (sw_percent s));
         ("total_gb", gb_if_pos (sw_total s));
         ("used_gb", gb_if_pos (sw_used s));
         ("free_gb", gb_if_pos (sw_free s))].

(** [round((usage.used / usage.total) * 100, 2) if usage.total > 0 else 0] *)
Definition percent_used_of (used total : Z) : pyval :=
  if Z.ltb 0 total
  then PFloat (round2 (float_mul (int_truediv used total) 100))
  else PInt 0.

Definition filesystem_data (pt : partition) (u : usage) : pyval :=
  PDict [("device", PStr (pt_device pt));
         ("mountpoint", PStr (pt_mountpoint pt));
         ("filesystem_type", PStr (pt_fstype pt));
         ("mount_options",
            PStr (match pt_opts pt with Some o => o | None => "" end));
         ("total_bytes", PInt (du_total u));
         ("used_bytes", PInt (du_used u));
         ("free_bytes", PInt (du_free u));
         ("percent_used", percent_used_of (du_used u) (du_total u));
         ("total_gb", PFloat (gb (du_total u)));
         ("used_gb", PFloat (gb (du_used u)));
         ("free_gb", PFloat (gb (du_free u)));
         ("inodes_total", opt_int (du_inodes_total u));
         ("inodes_used", opt_int (du_inodes_used u));
         ("inodes_free", opt_int (du_inodes_free u))].

Definition skipped_fstypes : list string :=
  ["tmpfs"; "devtmpfs"; "squashfs"; "overlay"].

(** The loop over [psutil.disk_partitions()]: pseudo filesystems are
    skipped, a partition whose [disk_usage] raises [PermissionError] or
    [OSError] is skipped, any other exception leaves the loop. *)
Fixpoint disk_loop (usage_of : string -> Exc usage) (parts : list partition)
    : Exc (list pyval) :=
  match parts with
  | [] => Ok []
  | pt :: rest =>
      if existsb (String.eqb (pt_fstype pt)) skipped_fstypes
      then disk_loop usage_of rest
      else match usage_of (pt_mountpoint pt) with
           | Raise e =>
               if is_oserror (exn_cls e) then disk_loop usage_of rest
               else Raise e
           | Ok u =>
               let! tl := disk_loop usage_of rest in
               Ok (filesystem_data pt u :: tl)
           end
  end.

Definition disk_io_data_of (r : Exc (option diskio)) : pyval :=
  match r with
  | Ok (Some io) =>
      PDict [("read_count", PInt (io_read_count io));
             ("write_count", PInt (io_write_count io));
             ("read_bytes", PInt (io_read_bytes io));
             ("write_bytes", PInt (io_write_bytes io));
             ("read_time", PInt (io_read_time io));
             ("write_time", PInt (io_write_time io))]
  | Ok None => PNone
  | Raise _ => PNone                     (* except Exception: None *)
  end.

Definition network_data_of (n : netio) : pyval :=
  PDict [("bytes_sent", PInt (net_bytes_sent n));
         ("bytes_recv", PInt (net_bytes_recv n));
         ("packets_sent", PInt (net_packets_sent n));
         ("packets_recv", PInt (net_packets_recv n));
         ("errors_in", PInt (net_errin n));
         ("errors_out", PInt (net_errout n));
         ("drops_in", PInt (net_dropin n));
         ("drops_out", PInt (net_dropout n))].

(** The loop over [psutil.process_iter(...)]: keeps the processes with
    [cpu_percent > 0 or memory_percent > 0]; a process that vanished or
    denied access is skipped, any other exception leaves the loop. *)
Fixpoint proc_filter (procs : list (Exc dict)) : Exc (list dict) :=
  match procs with
  | [] => Ok []
  | r :: rest =>
      match r with
      | Raise e => if is_proc_gone (exn_cls e) then proc_filter rest else Raise e
      | Ok info =>
          let! cpu := dict_index info "cpu_percent" in
          let! c := py_gt cpu (NInt 0) in
          let! keep := (if c then Ok true
                        else let! mem := dict_index info "memory_percent" in
                             py_gt mem (NInt 0)) in
          let! tl := proc_filter rest in
          Ok (if keep then info :: tl else tl)
      end
  end.

(** [key=lambda x: x.get('cpu_percent', 0)]; the kept processes have a
    numeric [cpu_percent] (it was compared with 0). *)
Definition proc_key (info : dict) : Q :=
  match py_num (dict_get_default info "cpu_percent" (PInt 0)) with
  | Some q => q
  | None => 0%Q
  end.

(** [list.sort(key=..., reverse=True)] is stable: a later element goes
    after the earlier ones with an equal key. *)
Fixpoint insert_desc (x : dict) (l : list dict) : list dict :=
  match l with
  | [] => [x]
  | y :: l' => if Qlt_bool (proc_key y) (proc_key x) then x :: l
               else y :: insert_desc x l'
  end.

Definition sort_desc (l : list dict) : list dict :=
  fold_left (fun acc x => insert_desc x acc) l [].

Definition top_processes (p : provider) : Exc (list dict) :=
  let! procs := p_process_iter p in
  let! kept := proc_filter procs in
  Ok (firstn 10 (sort_desc kept)).

(** The optional network section (lines 247-263). *)
Definition add_network (cfg : config) (p : provider) (metrics : dict) : dict :=
  if include_network cfg then
    match p_net_io p with
    | Ok n => dict_set metrics "network" (network_data_of n)
    | Raise _ => metrics                 (* except Exception: warning *)
    end
  else metrics.

(** The optional process section (lines 266-283). *)
Definition add_processes (cfg : config) (p : provider) (metrics : dict) : dict :=
  if include_processes cfg then
    match top_processes p with
    | Ok procs => dict_set metrics "top_processes" (PList (map PDict procs))
    | Raise _ => metrics                 (* except Exception: warning *)
    end
  else metrics.

(** The body of the [try] block of [collect_metrics] (lines 124-295). *)
Definition collect_body (cfg : config) (p : provider) (hostname : string)
    : Exc dict :=
  let timestamp := p_utcnow p in
  let! cpu_per_core := p_cpu_percpu p in
  let! cpu_overall := p_cpu_overall p in
  let! phys := p_cpu_count_physical p in
  let! logical := p_cpu_count_logical p in
  let! la := p_loadavg p in
  let! times := p_cpu_times p in
  let! stats := p_cpu_stats p in
  let cpu_data := cpu_data_of cpu_overall cpu_per_core phys logical la times stats in
  let! memory := p_virtual_memory p in
  let memory_data := memory_data_of memory in
  let! swap := p_swap_memory p in
  let swap_data := swap_data_of swap in
  let! parts := p_disk_partitions p in
  let! disk_data := disk_loop (p_disk_usage p) parts in
  let disk_io_data := disk_io_data_of (p_disk_io p) in
  let metrics :=
    [("timestamp", PStr timestamp);
     ("hostname", PStr hostname);
     ("collection_duration_ms", PFloat (round2 (p_elapsed_ms p)));
     ("cpu", cpu_data);
     ("memory", memory_data);
     ("swap", swap_data);
     ("disk", PDict [("filesystems", PList disk_data);
                     ("io_stats", disk_io_data)])] in
  Ok (add_processes cfg p (add_network cfg p metrics)).

(** The dict returned by the [except Exception as e] handler. *)
Definition error_snapshot (p : provider) (hostname : string) (e : exn) : dict :=
  [("timestamp", PStr (p_utcnow p));
   ("hostname", PStr hostname);
   ("collection_duration_ms", PFloat (round2 (p_elapsed_ms p)));
   ("error", PDict [("type", PStr (exn_class_name (exn_cls e)));
                    ("message", PStr (exn_msg e));
                    ("occurred_at", PStr (p_utcnow p))]);
   ("status", PStr "error")].

(** [MetricCollector.collect_metrics]: the hostname is looked up before
    the [try]; everything after it is guarded by [except Exception]. *)
Definition collect_metrics (cfg : config) (p : provider) : Exc dict :=
  let! hostname := p_uname p in
  Ok (match collect_body cfg p hostname with
      | Ok metrics => metrics
      | Raise e => error_snapshot p hostname e
      end).

(* ------------------------------------------------------------------ *)
(** ** Alerts: [check_alerts], [_send_alert], [_send_slack_alert] *)

(** Observable effects: log records that matter to the claims, calls to
    external services, sleeps. *)
Inductive event :=
| EvCheckAlerts                           (** [self.check_alerts(metrics)] is entered *)
| EvAlert (message : string)              (** [logger.warning("ALERT: ...")]: the alert fires *)
| EvSlackNotConfigured                    (** "Slack webhook URL not configured" *)
| EvSlackPost (url : string) (payload : pyval)   (** [requests.post(webhook_url, ...)] *)
| EvEmailAlert (message : string)         (** "Email alert (not implemented)" *)
| EvChannelError (channel : string)       (** "Failed to send alert via ..." *)
| EvPost (url : string) (payload : pyval) (timeout : Q)  (** POST to the ingestion endpoint *)
| EvSleep (seconds : Q).                  (** [time.sleep(retry_delay)] *)

(** What the outside world answers during one alert evaluation: the time
    [datetime.utcnow()] (in seconds), the node name and the Slack webhook
    (the HTTP status or a raised exception).  The time since a recorded
    fire is taken as the exact number of minutes [(now - last) / 60]; the
    float rounding of [total_seconds() / 60] is left out. *)
Record alert_env := {
  ae_now : Q;
  ae_nodename : Exc string;
  ae_slack_post : string -> pyval -> Exc Z
}.

(** [response.raise_for_status()] *)
Definition raise_for_status (status : Z) : Exc unit :=
  if andb (Z.leb 400 status) (Z.ltb status 600)
  then raise_ ReqHTTPError (pretty status)
  else Ok tt.

Definition slack_prefix : string := "🚨 ALERT from ".

(** [_send_slack_alert(message)]: the events it emits and its outcome. *)
Definition send_slack_alert (cfg : config) (env : alert_env) (message : string)
    : list event * Exc unit :=
  match slack_webhook_url cfg with
  | None => ([EvSlackNotConfigured], Ok tt)
  | Some url =>
      match ae_nodename env with
      | Raise e => ([], Raise e)
      | Ok node =>
          let payload :=
            PDict [("text", PStr (slack_prefix ++ node ++ ": " ++ message));
                   ("username", PStr "MetricsCollector");
                   ("icon_emoji", PStr ":warning:")] in
          ([EvSlackPost url payload],
           let! status := ae_slack_post env url payload in
           raise_for_status status)
      end
  end.

(** One iteration of the channel loop of [_send_alert]; a raising
    channel is caught and logged. *)
Definition channel_events (cfg : config) (env : alert_env) (message : string)
    (channel : string) : list event :=
  if String.eqb channel "slack" then
    let (evs, r) := send_slack_alert cfg env message in
    match r with
    | Ok _ => evs
    | Raise _ => evs ++ [EvChannelError channel]
    end
  else if String.eqb channel "email" then [EvEmailAlert message]
  else [].

(** [cooldown_key = hash(message)]: Python's [str] hash is a fixed
    function of the text within one process, so the registry is keyed by
    the text itself (hash collisions left out). *)
Definition cooldown_key (message : string) : string := message.

Abbreviation registry := (gmap string Q).

(** [_send_alert(message)] on the registry [self.alert_cooldown]. *)
Definition send_alert (cfg : config) (env : alert_env) (reg : registry)
    (message : string) : registry * list event :=
  let key := cooldown_key message in
  let current_time := ae_now env in
  let fire :=
    (<[key := current_time]> reg,
     EvAlert message ::
       concat (map (channel_events cfg env message) (alert_channels cfg))) in
  match reg !! key with
  | Some last =>
      if Qlt_bool ((current_time - last) / 60) (cooldown_minutes cfg)
      then (reg, [])
      else fire
  | None => fire
  end.

(** [v.get(k, default)] on a value that must be a dict. *)
Definition py_get (v : pyval) (k : string) (default : pyval) : Exc pyval :=
  match v with
  | PDict d => Ok (dict_get_default d k default)
  | _ => raise_ AttributeError "object has no attribute 'get'"
  end.

Fixpoint string_chars (s : string) : list pyval :=
  match s with
  | EmptyString => []
  | String c s' => PStr (String c EmptyString) :: string_chars s'
  end.

(** [for x in v]: the items of a list, the keys of a dict, the characters
    of a string; anything else raises [TypeError]. *)
Definition py_iter (v : pyval) : Exc (list pyval) :=
  match v with
  | PList l => Ok l
  | PDict d => Ok (map (fun kv => PStr (fst kv)) d)
  | PStr s => Ok (string_chars s)
  | _ => raise_ TypeError "object is not iterable"
  end.

(** [f"{v:.1f}"] for a number (the only values reaching it). *)
Definition fmt_pct (v : pyval) : string :=
  match py_num v with Some q => fmt_1f q | None => "" end.

Definition usage_message (what : string) (pct : pyval) (t : num) : string :=
  "High " ++ what ++ " usage: " ++ fmt_pct pct ++ "% (threshold: " ++
  num_str t ++ "%)".

Definition disk_message (d : dict) (pct : pyval) (t : num) : string :=
  "High disk usage on " ++
  py_str (dict_get_default d "mountpoint" (PStr "unknown")) ++ ": " ++
  fmt_pct pct ++ "% (threshold: " ++ num_str t ++ "%)".

(** The CPU, memory and swap checks:
    [if fam in thresholds and fam in metrics:
       p = metrics[fam].get('percent', 0)
       if p > thresholds[fam]: alerts_triggered.append(...)] *)
Definition family_check (th : list (string * num)) (metrics : dict)
    (family what : string) : Exc (list string) :=
  match threshold_get th family, dict_get metrics family with
  | Some t, Some v =>
      let! pct := py_get v "percent" (PInt 0) in
      let! hi := py_gt pct t in
      Ok (if hi then [usage_message what pct t] else [])
  | _, _ => Ok []
  end.

(** The loop [for disk in metrics['disk']]. *)
Fixpoint disk_checks (t : num) (items : list pyval) : Exc (list string) :=
  match items with
  | [] => Ok []
  | PDict d :: rest =>
      match dict_get d "percent" with
      | Some pct =>
          let! hi := py_gt pct t in
          let! tl := disk_checks t rest in
          Ok (if hi then disk_message d pct t :: tl else tl)
      | None => disk_checks t rest
      end
  | _ :: rest => disk_checks t rest
  end.

Definition disk_check (th : list (string * num)) (metrics : dict)
    : Exc (list string) :=
  match threshold_get th "disk", dict_get metrics "disk" with
  | Some t, Some v =>
      let! items := py_iter v in
      disk_checks t items
  | _, _ => Ok []
  end.

(** [alerts_triggered] as built by lines 324-354 of [check_alerts]. *)
Definition alerts_triggered (cfg : config) (metrics : dict) : Exc (list string) :=
  let th := thresholds cfg in
  let! a_cpu := family_check th metrics "cpu" "CPU" in
  let! a_mem := family_check th metrics "memory" "memory" in
  let! a_disk := disk_check th metrics in
  let! a_swap := family_check th metrics "swap" "swap" in
  Ok (a_cpu ++ a_mem ++ a_disk ++ a_swap)%list.

(** [for alert_message in alerts_triggered: self._send_alert(alert_message)] *)
Fixpoint send_alerts (cfg : config) (env : alert_env) (reg : registry)
    (msgs : list string) : registry * list event :=
  match msgs with
  | [] => (reg, [])
  | m :: rest =>
      let (reg1, evs1) := send_alert cfg env reg m in
      let (reg2, evs2) := send_alerts cfg env reg1 rest in
      (reg2, (evs1 ++ evs2)%list)
  end.

(** [MetricCollector.check_alerts(metrics)]: the new registry and the
    events, or the exception it raises (before any alert is sent). *)
Definition check_alerts (cfg : config) (env : alert_env) (reg : registry)
    (metrics : dict) : Exc (registry * list event) :=
  if negb (alerts_enabled cfg) then Ok (reg, [])
  else
    let! msgs := alerts_triggered cfg metrics in
    Ok (send_alerts cfg env reg msgs).

(* ------------------------------------------------------------------ *)
(** ** Transmission: [send_metrics] *)

(** What the outside world answers during one attempt of the retry loop:
    the provider seen by [collect_metrics], the alert environment seen by
    [check_alerts], and the ingestion endpoint ([requests.post]: the HTTP
    status of its response, or a raised exception). *)
Record attempt_env := {
  at_provider : provider;
  at_alerts : alert_env;
  at_post : pyval -> Exc Z
}.

Inductive attempt_outcome := Sent | Failed (e : exn).

(** The payload of line 429. *)
Definition payload_of (metrics : dict) (hostname : string) : pyval :=
  PDict [("hostname", dict_get_default metrics "hostname" (PStr hostname));
         ("metrics", PDict metrics)].

(** The [try] block of one attempt (lines 418-467): collect, check the
    alerts unless the snapshot carries an error, POST the payload.  The
    result is whether it returned [True] or which exception it raised,
    the registry afterwards and the events. *)
Definition attempt_body (cfg : config) (env : attempt_env) (hostname : string)
    (reg : registry) : attempt_outcome * registry * list event :=
  match collect_metrics cfg (at_provider env) with
  | Raise e => (Failed e, reg, [])
  | Ok metrics =>
      let skip := truthy (dict_get_default metrics "error" PNone) in
      let chk := if skip then [] else [EvCheckAlerts] in
      match (if skip then Ok (reg, [])
             else check_alerts cfg (at_alerts env) reg metrics) with
      | Raise e => (Failed e, reg, chk)
      | Ok (reg', aevs) =>
          let payload := payload_of metrics hostname in
          let evs := (chk ++ aevs ++
                      [EvPost (endpoint_url cfg) payload (endpoint_timeout cfg)])%list in
          match (let! status := at_post env payload in raise_for_status status) with
          | Ok _ => (Sent, reg', evs)
          | Raise e => (Failed e, reg', evs)
          end
      end
  end.

(** The [except] clauses: [Timeout], [ConnectionError] and [HTTPError]
    are logged and the loop goes on; any other exception [break]s. *)
Inductive handling := Retry | Abort.

Definition classify (e : exn) : handling :=
  match exn_cls e with
  | ReqTimeout | ReqConnectionError | ReqHTTPError => Retry
  | _ => Abort
  end.

(** [for attempt in range(max_retries)] from [attempt] on, with [fuel]
    iterations left; [envs attempt] is the world seen by that attempt. *)
Fixpoint attempts (cfg : config) (envs : nat -> attempt_env) (hostname : string)
    (reg : registry) (attempt : nat) (fuel : nat) : bool * registry * list event :=
  match fuel with
  | O => (false, reg, [])
  | S fuel' =>
      let '(out, reg1, evs1) := attempt_body cfg (envs attempt) hostname reg in
      match out with
      | Sent => (true, reg1, evs1)
      | Failed e =>
          match classify e with
          | Abort => (false, reg1, evs1)
          | Retry =>
              let sleep :=
                if Z.ltb (Z.of_nat attempt) (max_retries cfg - 1)
                then [EvSleep (retry_delay cfg)] else [] in
              let '(ok, reg2, evs2) :=
                attempts cfg envs hostname reg1 (S attempt) fuel' in
              (ok, reg2, (evs1 ++ sleep ++ evs2)%list)
          end
      end
  end.

(** [MetricCollector.send_metrics()]: [uname] is the hostname lookup of
    line 415, made before the loop. *)
Definition send_metrics (cfg : config) (uname : Exc string)
    (envs : nat -> attempt_env) (reg : registry)
    : Exc (bool * registry * list event) :=
  let! hostname := uname in
  Ok (attempts cfg envs hostname reg 0 (Z.to_nat (max_retries cfg))).

(** The ingestion POSTs among the events. *)
Definition posts (evs : list event) : list pyval :=
  flat_map (fun ev => match ev with EvPost _ p _ => [p] | _ => [] end) evs.

(** The POSTs and sleeps among the events, in order. *)
Definition posts_and_sleeps (evs : list event) : list event :=
  List.filter (fun ev => match ev with EvPost _ _ _ | EvSleep _ => true | _ => false end) evs.

(* ------------------------------------------------------------------ *)
(** ** The configuration of the repository's tests *)

Definition test_config : config := {|
  endpoint_url := "http://localhost:8000/ingest";
  endpoint_timeout := 10;
  max_retries := 3;
  retry_delay := 1;
  thresholds := [("cpu", NInt 80); ("memory", NInt 85); ("disk", NInt 90);
                 ("swap", NInt 50)];
  alerts_enabled := true;
  cooldown_minutes := 5;
  alert_channels := ["log"];
  slack_webhook_url := None;
  include_network := true;
  include_processes := false
|}.

(** The snapshot of [test_alert_checking]. *)
Definition breaching_snapshot : dict :=
  [("cpu", PDict [("percent", PFloat 85)]);
   ("memory", PDict [("percent", PFloat 90)]);
   ("swap", PDict [("percent", PFloat 60)]);
   ("disk", PList [PDict [("percent", PFloat 95); ("mountpoint", PStr "/")]])].

(** A provider answering like the mocks of [test_collect_metrics_comprehensive]. *)
Definition sample_usage (mountpoint : string) : Exc usage :=
  if String.eqb mountpoint "/" then
    Ok {| du_total := 107374182400; du_used := 53687091200; du_free := 53687091200;
          du_inodes_total := None; du_inodes_used := None; du_inodes_free := None |}
  else if String.eqb mountpoint "/home" then
    Ok {| du_total := 214748364800; du_used := 64424509440; du_free := 150323855360;
          du_inodes_total := None; du_inodes_used := None; du_inodes_free := None |}
  else raise_ OSError "No such file or directory".

Definition sample_partitions : list partition :=
  [{| pt_device := "/dev/sda1"; pt_mountpoint := "/"; pt_fstype := "ext4";
      pt_opts := Some "rw,relatime" |};
   {| pt_device := "/dev/sda2"; pt_mountpoint := "/home"; pt_fstype := "ext4";
      pt_opts := Some "rw,relatime" |};
   {| pt_device := "tmpfs"; pt_mountpoint := "/tmp"; pt_fstype := "tmpfs";
      pt_opts := Some "rw,nosuid,nodev" |}].

Definition sample_provider (timestamp : string) : provider := {|
  p_uname := Ok "test-host";
  p_utcnow := timestamp;
  p_elapsed_ms := 1004.5;
  p_cpu_percpu := Ok [25; 30; 35; 40]%Q;
  p_cpu_overall := Ok 45.5%Q;
  p_cpu_count_physical := Ok (Some 4%Z);
  p_cpu_count_logical := Ok (Some 8%Z);
  p_loadavg := Ok (Some [1; 1.5; 2]%Q);
  p_cpu_times := Ok [("user", 1000%Q); ("system", 500%Q); ("idle", 8500%Q); ("nice", 0%Q)];
  p_cpu_stats := Ok (Some [("ctx_switches", 1000000%Z); ("interrupts", 500000%Z);
                           ("soft_interrupts", 250000%Z)]);
  p_virtual_memory := Ok {| vm_total := 8589934592; vm_used := 4294967296;
                            vm_free := 4294967296; vm_available := 4294967296;
                            vm_percent := 50; vm_buffers := Some 134217728%Z;
                            vm_cached := Some 268435456%Z; vm_shared := Some 67108864%Z |};
  p_swap_memory := Ok {| sw_total := 2147483648; sw_used := 0;
                         sw_free := 2147483648; sw_percent := 0 |};
  p_disk_partitions := Ok sample_partitions;
  p_disk_usage := sample_usage;
  p_disk_io := Ok (Some {| io_read_count := 1000000; io_write_count := 500000;
                           io_read_bytes := 10737418240; io_write_bytes := 5368709120;
                           io_read_time := 60000; io_write_time := 30000 |});
  p_net_io := Ok {| net_bytes_sent := 1000000; net_bytes_recv := 2000000;
                    net_packets_sent := 1000; net_packets_recv := 2000;
                    net_errin := 0; net_errout := 0; net_dropin := 0; net_dropout := 0 |};
  p_process_iter := Ok []
|}.

Definition quiet_alert_env : alert_env := {|
  ae_now := 0;
  ae_nodename := Ok "test-host";
  ae_slack_post := fun _ _ => Ok 200%Z
|}.

Definition sample_time : string := "2024-01-01T00:00:00Z".

(** The success-path snapshot collected from [sample_provider]. *)
Definition sample_snapshot : dict :=
  match collect_body test_config (sample_provider sample_time) "test-host" with
  | Ok m => m
  | Raise _ => []
  end.

Definition sample_disk : list pyval * pyval :=
  match dict_get sample_snapshot "disk" with
  | Some (PDict [(_, PList fs); (_, io)]) => (fs, io)
  | _ => ([], PNone)
  end.

Definition sample_root_record : dict :=
  match fst sample_disk with PDict d :: _ => d | _ => [] end.

(** The alert environment at time [t] (seconds). *)
Definition alert_env_at (t : Q) : alert_env := {|
  ae_now := t;
  ae_nodename := Ok "test-host";
  ae_slack_post := fun _ _ => Ok 200%Z
|}.

Definition cpu_alert_85 : string := "High CPU usage: 85.0% (threshold: 80%)".



(** [p] with another answer for [cpu_percent(interval=1, percpu=True)]. *)
Definition provider_with_percpu (p : provider) (r : Exc (list Q)) : provider := {|
  p_uname := p_uname p;
  p_utcnow := p_utcnow p;
  p_elapsed_ms := p_elapsed_ms p;
  p_cpu_percpu := r;
  p_cpu_overall := p_cpu_overall p;
  p_cpu_count_physical := p_cpu_count_physical p;
  p_cpu_count_logical := p_cpu_count_logical p;
  p_loadavg := p_loadavg p;
  p_cpu_times := p_cpu_times p;
  p_cpu_stats := p_cpu_stats p;
  p_virtual_memory := p_virtual_memory p;
  p_swap_memory := p_swap_memory p;
  p_disk_partitions := p_disk_partitions p;
  p_disk_usage := p_disk_usage p;
  p_disk_io := p_disk_io p;
  p_net_io := p_net_io p;
  p_process_iter := p_process_iter p
|}.

(** The snapshot [collect_metrics] returns on [p] ([[]] if it raises). *)
Definition collected (cfg : config) (p : provider) : dict :=
  match collect_metrics cfg p with Ok m => m | Raise _ => [] end.

(** The payload POSTed by attempt [i] of [send_metrics]. *)
Definition attempt_payload (cfg : config) (envs : nat -> attempt_env)
    (hostname : string) (i : nat) : pyval :=
  payload_of (collected cfg (at_provider (envs i))) hostname.

(** The answer of [requests.post] makes the attempt fail with an exception
    the loop retries: [Timeout], [ConnectionError], or a status that
    [raise_for_status] turns into an [HTTPError]. *)
Definition post_retryable (r : Exc Z) : bool :=
  match r with
  | Ok status => andb (Z.leb 400 status) (Z.ltb status 600)
  | Raise e => match classify e with Retry => true | Abort => false end
  end.

(** The answer of [requests.post] passes [raise_for_status]. *)
Definition post_accepts (r : Exc Z) : bool :=
  match r with
  | Ok status => negb (andb (Z.leb 400 status) (Z.ltb status 600))
  | Raise _ => false
  end.

(** A collection run two seconds apart per attempt ([interval=1] of
    [cpu_percent] plus [retry_delay]). *)
Definition attempt_time (i : nat) : string :=
  match i with
  | O => "2024-01-01T00:00:00Z"
  | 1 => "2024-01-01T00:00:02Z"
  | _ => "2024-01-01T00:00:04Z"
  end.

(** A sink timing out on the first two attempts and answering 200 on the
    third. *)
Definition flaky_envs (i : nat) : attempt_env := {|
  at_provider := sample_provider (attempt_time i);
  at_alerts := alert_env_at (2 * inject_Z (Z.of_nat i));
  at_post := fun _ => if Nat.ltb i 2 then raise_ ReqTimeout "Read timed out."
                      else Ok 200%Z
|}.

(** A sink always timing out. *)
Definition timeout_envs (i : nat) : attempt_env := {|
  at_provider := sample_provider (attempt_time i);
  at_alerts := alert_env_at (2 * inject_Z (Z.of_nat i));
  at_post := fun _ => raise_ ReqTimeout "Read timed out."
|}.

(** [requests.post] raising while encoding the JSON body, an exception
    none of the [requests] handlers catches. *)
Definition json_error : exn :=
  mkExn ValueError "Out of range float values are not JSON compliant".

Definition json_error_env : attempt_env := {|
  at_provider := sample_provider sample_time;
  at_alerts := quiet_alert_env;
  at_post := fun _ => Raise json_error
|}.

(** A provider whose first CPU sampling raises. *)
Definition sensor_error : exn := mkExn (OtherException "RuntimeError") "sensor read failed".

Definition sensor_failure_provider : provider :=
  provider_with_percpu (sample_provider sample_time) (Raise sensor_error).

Definition sensor_failure_env : attempt_env := {|
  at_provider := sensor_failure_provider;
  at_alerts := quiet_alert_env;
  at_post := fun _ => Ok 200%Z
|}.



(** [partition.fstype not in ['tmpfs', 'devtmpfs', 'squashfs', 'overlay']] *)
Definition nonpseudo (pt : partition) : bool :=
  negb (existsb (String.eqb (pt_fstype pt)) skipped_fstypes).

(** The records the disk loop keeps when no [disk_usage] call raises
    anything but [OSError]: one per non-pseudo partition whose usage call
    answers, in partition order. *)
Definition readable_records (usage_of : string -> Exc usage) (parts : list partition)
    : list pyval :=
  flat_map (fun pt =>
              if nonpseudo pt then
                match usage_of (pt_mountpoint pt) with
                | Ok u => [filesystem_data pt u]
                | Raise _ => []
                end
              else []) parts.

Definition exc_ok {A} (m : Exc A) : bool :=
  match m with Ok _ => true | Raise _ => false end.

(** A network file system whose mount point denies access. *)
Definition nfs_partition : partition :=
  {| pt_device := "server:/export"; pt_mountpoint := "/mnt/nfs"; pt_fstype := "nfs";
     pt_opts := Some "rw" |}.

Definition nfs_usage (mountpoint : string) : Exc usage :=
  if String.eqb mountpoint "/mnt/nfs" then raise_ PermissionError "Permission denied"
  else sample_usage mountpoint.

(** The sleeps among the events, their durations in order. *)
Definition sleeps (evs : list event) : list Q :=
  flat_map (fun ev => match ev with EvSleep d => [d] | _ => [] end) evs.

(** [cfg] with another [endpoint.max_retries]. *)
Definition config_with_retries (cfg : config) (n : Z) : config := {|
  endpoint_url := endpoint_url cfg;
  endpoint_timeout := endpoint_timeout cfg;
  max_retries := n;
  retry_delay := retry_delay cfg;
  thresholds := thresholds cfg;
  alerts_enabled := alerts_enabled cfg;
  cooldown_minutes := cooldown_minutes cfg;
  alert_channels := alert_channels cfg;
  slack_webhook_url := slack_webhook_url cfg;
  include_network := include_network cfg;
  include_processes := include_processes cfg
|}.

(** [cfg] with other [thresholds], [alerts.channels] and
    [alerts.slack_webhook_url]. *)
Definition config_with_alerting (cfg : config) (th : list (string * num))
    (channels : list string) (webhook : option string) : config := {|
  endpoint_url := endpoint_url cfg;
  endpoint_timeout := endpoint_timeout cfg;
  max_retries := max_retries cfg;
  retry_delay := retry_delay cfg;
  thresholds := th;
  alerts_enabled := alerts_enabled cfg;
  cooldown_minutes := cooldown_minutes cfg;
  alert_channels := channels;
  slack_webhook_url := webhook;
  include_network := include_network cfg;
  include_processes := include_processes cfg
|}.

(** The alert a family of a success snapshot raises: its sub-dict has no
    ['percent'], so [0] is compared with the threshold. *)
Definition missing_percent_alert (th : list (string * num)) (fam what : string)
    : list string :=
  match threshold_get th fam with
  | Some t => if Qlt_bool (num_val t) 0 then [usage_message what (PInt 0) t] else []
  | None => []
  end.

Definition is_email_alert (ev : event) : bool :=
  match ev with EvEmailAlert _ => true | _ => false end.

Definition is_slack_post (ev : event) : bool :=
  match ev with EvSlackPost _ _ => true | _ => false end.

(** An alert environment whose Slack webhook answers [500]. *)
Definition slack_down_env : alert_env := {|
  ae_now := 0;
  ae_nodename := Ok "test-host";
  ae_slack_post := fun _ _ => Ok 500%Z
|}.

(** A process the filter keeps: [cpu_percent > 0], or else
    [memory_percent > 0]. *)
Definition active_proc (info : dict) : Prop :=
  exists c, dict_get info "cpu_percent" = Some c /\
  exists qc, py_num c = Some qc /\
  ((0 < qc)%Q \/ exists m, dict_get info "memory_percent" = Some m /\
                   exists qm, py_num m = Some qm /\ (0 < qm)%Q).

(** [cpu_percent >= key of the next process] all along the list. *)
Definition desc_key (a b : dict) : Prop := (proc_key b <= proc_key a)%Q.

Definition proc_info (pid : Z) (cpu mem : Q) : dict :=
  [("pid", PInt pid); ("name", PStr "p"); ("cpu_percent", PFloat cpu);
   ("memory_percent", PFloat mem); ("username", PStr "root")].

(** Twelve busy processes, an idle one and one that vanished. *)
Definition busy_processes : list (Exc dict) :=
  (Raise {| exn_cls := NoSuchProcess; exn_msg := "gone" |} ::
   Ok (proc_info 1 0 0) ::
   map (fun i => Ok (proc_info i (inject_Z i) 1)) [2; 7; 3; 11; 5; 13; 4; 9; 6; 8; 10; 12])%Z.

Definition provider_with_procs (p : provider) (r : Exc (list (Exc dict))) : provider := {|
  p_uname := p_uname p;
  p_utcnow := p_utcnow p;
  p_elapsed_ms := p_elapsed_ms p;
  p_cpu_percpu := p_cpu_percpu p;
  p_cpu_overall := p_cpu_overall p;
  p_cpu_count_physical := p_cpu_count_physical p;
  p_cpu_count_logical := p_cpu_count_logical p;
  p_loadavg := p_loadavg p;
  p_cpu_times := p_cpu_times p;
  p_cpu_stats := p_cpu_stats p;
  p_virtual_memory := p_virtual_memory p;
  p_swap_memory := p_swap_memory p;
  p_disk_partitions := p_disk_partitions p;
  p_disk_usage := p_disk_usage p;
  p_disk_io := p_disk_io p;
  p_net_io := p_net_io p;
  p_process_iter := r
|}.

Definition process_provider : provider :=
  provider_with_procs (sample_provider sample_time) (Ok busy_processes).

(* ------------------------------------------------------------------ *)
(** ** [_load_config] (lines 30-61) *)

(** Its outcome: the configuration returned, or the process exiting with
    status 1 after printing the line [output]. *)
Inductive load_result :=
| Loaded (config : pyval)
| Exited (output : string).

(** [type(v).__name__] *)
Definition py_type_name (v : pyval) : string :=
  match v with
  | PNone => "NoneType"
  | PBool _ => "bool"
  | PInt _ => "int"
  | PFloat _ => "float"
  | PStr _ => "str"
  | PList _ => "list"
  | PDict _ => "dict"
  end.

(** [x in container] for a string [x]: a key of a dict, an element of a
    list, a substring of a string; other values are not iterable. *)
Definition py_contains (container : pyval) (x : string) : Exc bool :=
  match container with
  | PDict d => Ok (dict_has d x)
  | PList l => Ok (existsb (fun v => match v with PStr t => String.eqb t x | _ => false end) l)
  | PStr t => Ok (match String.index 0 x t with Some _ => true | None => false end)
  | v => raise_ TypeError ("argument of type '" ++ py_type_name v ++ "' is not iterable")
  end.

(** [v.setdefault(k, default)], giving the value [v] holds afterwards;
    only a dict has the method. *)
Definition py_setdefault (v : pyval) (k : string) (default : pyval) : Exc pyval :=
  match v with
  | PDict d => Ok (if dict_has d k then PDict d else PDict (dict_set d k default))
  | v => raise_ AttributeError
           ("'" ++ py_type_name v ++ "' object has no attribute 'setdefault'")
  end.

Definition required_sections : list string := ["endpoint"; "interval_seconds"; "thresholds"].

Definition default_alerts : pyval :=
  PDict [("enabled", PBool true); ("cooldown_minutes", PInt 5);
         ("channels", PList [PStr "log"])].

Definition default_metrics : pyval :=
  PDict [("include_network", PBool true); ("include_processes", PBool false);
         ("disk_usage_only", PBool true)].

(** [for section in required_sections: if section not in config: raise ...] *)
Fixpoint check_sections (config : pyval) (sections : list string) : Exc unit :=
  match sections with
  | [] => Ok tt
  | section :: rest =>
      let! present := py_contains config section in
      if present then check_sections config rest
      else raise_ ValueError ("Missing required configuration section: " ++ section)
  end.

(** The [try] block: [file_exists] is [config_path.exists()], [document]
    what [open] and [yaml.safe_load] give (a raise for an unreadable file
    or invalid YAML). *)
Definition load_config_body (path : string) (file_exists : bool) (document : Exc pyval)
    : Exc pyval :=
  if negb file_exists then
    raise_ (OtherException "FileNotFoundError") ("Configuration file not found: " ++ path)
  else
    let! config := document in
    let! _ := check_sections config required_sections in
    let! config := py_setdefault config "alerts" default_alerts in
    py_setdefault config "metrics" default_metrics.

(** [except Exception as e: print(f"Error loading configuration: {e}"); sys.exit(1)] *)
Definition load_config (path : string) (file_exists : bool) (document : Exc pyval)
    : load_result :=
  match load_config_body path file_exists document with
  | Ok config => Loaded config
  | Raise e => Exited ("Error loading configuration: " ++ exn_msg e)
  end.

Definition sample_yaml : dict :=
  [("endpoint", PDict [("url", PStr "http://localhost:8080/metrics")]);
   ("interval_seconds", PInt 30);
   ("thresholds", PDict [("cpu", PInt 80); ("memory", PInt 85)]);
   ("metrics", PDict [("include_processes", PBool true)])].

(** A key whose recorded fire still holds the alert back at [ae_now env]. *)
Definition held (cfg : config) (env : alert_env) (reg : registry) (m : string) : Prop :=
  exists last, reg !! cooldown_key m = Some last /\
               Qlt_bool ((ae_now env - last) / 60) (cooldown_minutes cfg) = true.

(* ================================================================== *)
(** * Properties *)

(** ** Lemmas on dicts *)

Lemma dict_get_set_ne (d : dict) (k k' : string) (v : pyval) :
  k' <> k -> dict_get (dict_set d k v) k' = dict_get d k'.
Proof.
  intros Hne. induction d as [|[k0 v0] d IH]; simpl.
  - destruct (String.eqb_spec k' k); congruence.
  - destruct (String.eqb_spec k k0) as [->|Hk]; simpl.
    + destruct (String.eqb_spec k' k0); congruence.
    + destruct (String.eqb_spec k' k0); [reflexivity|exact IH].
Qed.

Lemma threshold_get_In (th : list (string * num)) (k : string) (t : num) :
  threshold_get th k = Some t -> In (k, t) th.
Proof.
  induction th as [|[k' t'] th IH]; simpl; [discriminate|].
  destruct (String.eqb_spec k k') as [->|_]; intros H.
  - injection H as ->. now left.
  - right. now apply IH.
Qed.

(** ** C1 *)

(** C1: with the thresholds [{cpu: 80, memory: 85, disk: 90, swap: 50}]
    and the snapshot [cpu=85.0, memory=90.0, swap=60.0,
    disk=[{mountpoint: "/", percent: 95.0}]], [check_alerts] triggers
    exactly four alerts, one per breached family or filesystem, and from
    an empty cooldown registry it dispatches all four. *)
Theorem check_alerts_four_breaches (env : alert_env) :
  alerts_triggered test_config breaching_snapshot =
    Ok ["High CPU usage: 85.0% (threshold: 80%)";
        "High memory usage: 90.0% (threshold: 85%)";
        "High disk usage on /: 95.0% (threshold: 90%)";
        "High swap usage: 60.0% (threshold: 50%)"] /\
  match check_alerts test_config env ∅ breaching_snapshot with
  | Ok (_, evs) =>
      evs = [EvAlert "High CPU usage: 85.0% (threshold: 80%)";
             EvAlert "High memory usage: 90.0% (threshold: 85%)";
             EvAlert "High disk usage on /: 95.0% (threshold: 90%)";
             EvAlert "High swap usage: 60.0% (threshold: 50%)"]
  | Raise _ => False
  end.
Proof. split; vm_compute; reflexivity. Qed.

(** ** The shape of a snapshot of the success path *)

Ltac exc_inv H :=
  repeat match type of H with
  | exc_bind ?m _ = Ok _ =>
      let E := fresh "E" in
      destruct m eqn:E; cbn [exc_bind] in H; [|discriminate H]
  end.

(** Keys other than [network] and [top_processes] are those of the base
    dict, whatever the optional sections added. *)
Lemma optional_sections_get (cfg : config) (p : provider) (base : dict) (k : string) :
  k <> "network" -> k <> "top_processes" ->
  dict_get (add_processes cfg p (add_network cfg p base)) k = dict_get base k.
Proof.
  intros Hn Ht. unfold add_processes, add_network.
  destruct (include_processes cfg), (top_processes p), (include_network cfg),
    (p_net_io p); rewrite ?dict_get_set_ne by assumption; reflexivity.
Qed.

(** A snapshot of the success path: [cpu], [memory] and [swap] are dicts
    without a ["percent"] key, [disk] is the dict
    [{"filesystems": ..., "io_stats": ...}], and there is no ["error"]. *)
Lemma collect_body_shape (cfg : config) (p : provider) (h : string) (m : dict) :
  collect_body cfg p h = Ok m ->
  (exists c, dict_get m "cpu" = Some (PDict c) /\ dict_get c "percent" = None) /\
  (exists c, dict_get m "memory" = Some (PDict c) /\ dict_get c "percent" = None) /\
  (exists c, dict_get m "swap" = Some (PDict c) /\ dict_get c "percent" = None) /\
  (exists fs io, dict_get m "disk" =
                   Some (PDict [("filesystems", fs); ("io_stats", io)])) /\
  dict_get m "error" = None.
Proof.
  unfold collect_body. intros H. exc_inv H.
  injection H as <-.
  repeat split;
    [eexists; rewrite optional_sections_get by discriminate; split; reflexivity
    |eexists; rewrite optional_sections_get by discriminate; split; reflexivity
    |eexists; rewrite optional_sections_get by discriminate; split; reflexivity
    |do 2 eexists; rewrite optional_sections_get by discriminate; reflexivity
    |rewrite optional_sections_get by discriminate; reflexivity].
Qed.

Lemma family_check_without_percent (th : list (string * num)) (m c : dict)
    (fam what : string) :
  dict_get m fam = Some (PDict c) -> dict_get c "percent" = None ->
  (forall t, threshold_get th fam = Some t -> (0 <= num_val t)%Q) ->
  family_check th m fam what = Ok [].
Proof.
  intros Hm Hc Ht. unfold family_check. rewrite Hm.
  destruct (threshold_get th fam) as [t|] eqn:Et; [|reflexivity].
  cbn [exc_bind py_get]. unfold dict_get_default. rewrite Hc.
  unfold py_gt, py_num; cbn [exc_bind].
  unfold Qlt_bool. specialize (Ht t eq_refl). apply Qle_bool_iff in Ht.
  change (inject_Z 0) with 0%Q. now rewrite Ht.
Qed.

Lemma disk_check_filesystems_dict (th : list (string * num)) (m : dict)
    (fs io : pyval) :
  dict_get m "disk" = Some (PDict [("filesystems", fs); ("io_stats", io)]) ->
  disk_check th m = Ok [].
Proof.
  intros Hm. unfold disk_check. rewrite Hm.
  destruct (threshold_get th "disk"); reflexivity.
Qed.

(** ** C2 *)

(** C2: for every snapshot of the success path of [collect_metrics] and
    every thresholds mapping with non-negative values, [check_alerts]
    dispatches no alert and leaves the cooldown registry unchanged: the
    [percent] key it reads is absent from the [cpu], [memory] and [swap]
    sub-dicts (so [0] is compared), and iterating [metrics['disk']] yields
    the keys ["filesystems"] and ["io_stats"], which are not dicts. *)
Theorem success_snapshot_dispatches_nothing (cfg : config) (p : provider)
    (hostname : string) (metrics : dict) (env : alert_env) (reg : registry) :
  p_uname p = Ok hostname ->
  collect_body cfg p hostname = Ok metrics ->
  Forall (fun kt => (0 <= num_val (snd kt))%Q) (thresholds cfg) ->
  collect_metrics cfg p = Ok metrics /\
  check_alerts cfg env reg metrics = Ok (reg, []).
Proof.
  intros Hu Hb Hth. split.
  { unfold collect_metrics. rewrite Hu. cbn [exc_bind]. now rewrite Hb. }
  assert (Hnn : forall fam t, threshold_get (thresholds cfg) fam = Some t ->
                              (0 <= num_val t)%Q).
  { intros fam t Ht. apply threshold_get_In in Ht.
    rewrite List.Forall_forall in Hth. exact (Hth _ Ht). }
  destruct (collect_body_shape cfg p hostname metrics Hb)
    as [[c1 [H1 H1']] [[c2 [H2 H2']] [[c3 [H3 H3']] [[fs [io H4]] _]]]].
  unfold check_alerts. destruct (alerts_enabled cfg); [|reflexivity]. cbn [negb].
  unfold alerts_triggered.
  rewrite (family_check_without_percent _ _ _ _ _ H1 H1' (Hnn _)),
    (family_check_without_percent _ _ _ _ _ H2 H2' (Hnn _)),
    (disk_check_filesystems_dict _ _ _ _ H4),
    (family_check_without_percent _ _ _ _ _ H3 H3' (Hnn _)).
  reflexivity.
Qed.

Lemma success_snapshot_dispatches_nothing_witness :
  p_uname (sample_provider sample_time) = Ok "test-host" /\
  collect_body test_config (sample_provider sample_time) "test-host" =
    Ok sample_snapshot /\
  Forall (fun kt => (0 <= num_val (snd kt))%Q) (thresholds test_config) /\
  (collect_metrics test_config (sample_provider sample_time) = Ok sample_snapshot /\
   check_alerts test_config quiet_alert_env ∅ sample_snapshot = Ok (∅, [])).
Proof.
  split; [reflexivity|]. split; [vm_compute; reflexivity|].
  split; [repeat constructor; vm_compute; discriminate|].
  apply (success_snapshot_dispatches_nothing test_config
           (sample_provider sample_time) "test-host");
    [reflexivity|vm_compute; reflexivity|repeat constructor; vm_compute; discriminate].
Defined.

(** ** C10 *)

Lemma collect_body_filesystems (cfg : config) (p : provider) (h : string) (m : dict) :
  collect_body cfg p h = Ok m ->
  exists parts fs io,
    p_disk_partitions p = Ok parts /\
    disk_loop (p_disk_usage p) parts = Ok fs /\
    dict_get m "disk" = Some (PDict [("filesystems", PList fs); ("io_stats", io)]).
Proof.
  unfold collect_body. intros H. exc_inv H. injection H as <-.
  do 3 eexists. split; [reflexivity|]. split; [eassumption|].
  rewrite optional_sections_get by discriminate. reflexivity.
Qed.

Lemma disk_loop_records (usage_of : string -> Exc usage) (parts : list partition)
    (fs : list pyval) :
  disk_loop usage_of parts = Ok fs ->
  forall x, In x fs -> exists pt u,
    In pt parts /\ usage_of (pt_mountpoint pt) = Ok u /\ x = filesystem_data pt u.
Proof.
  revert fs. induction parts as [|pt parts IH]; cbn [disk_loop]; intros fs H x Hx.
  - injection H as <-. destruct Hx.
  - destruct (existsb (String.eqb (pt_fstype pt)) skipped_fstypes).
    + destruct (IH fs H x Hx) as (pt' & u & ? & ? & ?). exists pt', u.
      simpl. auto.
    + destruct (usage_of (pt_mountpoint pt)) as [u|e] eqn:Eu.
      * destruct (disk_loop usage_of parts) as [tl|e] eqn:Etl; cbn [exc_bind] in H;
          [|discriminate].
        injection H as <-. destruct Hx as [<-|Hx].
        -- exists pt, u. simpl. auto.
        -- destruct (IH tl eq_refl x Hx) as (pt' & u' & ? & ? & ?). exists pt', u'.
           simpl. auto.
      * destruct (is_oserror (exn_cls e)); [|discriminate].
        destruct (IH fs H x Hx) as (pt' & u' & ? & ? & ?). exists pt', u'.
        simpl. auto.
Qed.

(** C10: every filesystem record of a snapshot has
    [percent_used = round(used / total * 100, 2)] when [total > 0], computed
    on Python floats (the quotient and the product each rounded to
    binary64, then [round]), and
    [percent_used = 0] when [total == 0], where [used] and [total] are the
    record's own [used_bytes] and [total_bytes]. *)
Theorem filesystem_percent_used (cfg : config) (p : provider) (h : string)
    (metrics : dict) (fs : list pyval) (io : pyval) (record : dict) :
  collect_body cfg p h = Ok metrics ->
  dict_get metrics "disk" = Some (PDict [("filesystems", PList fs); ("io_stats", io)]) ->
  In (PDict record) fs ->
  exists used total,
    dict_get record "used_bytes" = Some (PInt used) /\
    dict_get record "total_bytes" = Some (PInt total) /\
    ((0 < total)%Z ->
       dict_get record "percent_used" =
         Some (PFloat (round2 (float_mul (int_truediv used total) 100)))) /\
    (total = 0%Z -> dict_get record "percent_used" = Some (PInt 0)).
Proof.
  intros Hb Hd Hin.
  destruct (collect_body_filesystems cfg p h metrics Hb) as (parts & fs' & io' & _ & Hl & Hd').
  rewrite Hd in Hd'. injection Hd' as -> _.
  destruct (disk_loop_records _ _ _ Hl _ Hin) as (pt & u & _ & _ & Hx).
  unfold filesystem_data in Hx. injection Hx as ->.
  exists (du_used u), (du_total u). cbn.
  split; [reflexivity|]. split; [reflexivity|].
  unfold percent_used_of. split.
  - intros Hpos. apply Z.ltb_lt in Hpos. now rewrite Hpos.
  - intros ->. reflexivity.
Qed.

Lemma filesystem_percent_used_witness :
  collect_body test_config (sample_provider sample_time) "test-host" =
    Ok sample_snapshot /\
  dict_get sample_snapshot "disk" =
    Some (PDict [("filesystems", PList (fst sample_disk));
                 ("io_stats", snd sample_disk)]) /\
  In (PDict sample_root_record) (fst sample_disk) /\
  exists used total,
    dict_get sample_root_record "used_bytes" = Some (PInt used) /\
    dict_get sample_root_record "total_bytes" = Some (PInt total) /\
    ((0 < total)%Z ->
       dict_get sample_root_record "percent_used" =
         Some (PFloat (round2 (float_mul (int_truediv used total) 100)))) /\
    (total = 0%Z -> dict_get sample_root_record "percent_used" = Some (PInt 0)).
Proof.
  split; [vm_compute; reflexivity|].
  split; [vm_compute; reflexivity|].
  split; [vm_compute; left; reflexivity|].
  apply (filesystem_percent_used test_config (sample_provider sample_time)
           "test-host" sample_snapshot (fst sample_disk) (snd sample_disk));
    [vm_compute; reflexivity|vm_compute; reflexivity|vm_compute; left; reflexivity].
Defined.

(** ** C5 *)

Lemma Qlt_bool_iff (x y : Q) : Qlt_bool x y = true <-> (x < y)%Q.
Proof.
  unfold Qlt_bool. rewrite negb_true_iff.
  split; intros H.
  - apply Qnot_le_lt. intros Hle. apply Qle_bool_iff in Hle. congruence.
  - destruct (Qle_bool y x) eqn:E; [|reflexivity].
    apply Qle_bool_iff in E. exfalso. now apply (Qlt_not_le x y).
Qed.

Lemma Qlt_bool_false (x y : Q) : Qlt_bool x y = false <-> (y <= x)%Q.
Proof.
  unfold Qlt_bool. rewrite negb_false_iff. apply Qle_bool_iff.
Qed.

(** The outcome of [_send_alert]: suppressed, or fired with the registry
    entry set to the current time. *)
Lemma send_alert_cases (cfg : config) (env : alert_env) (reg : registry)
    (message : string) :
  let key := cooldown_key message in
  let fired := (<[key := ae_now env]> reg,
                EvAlert message ::
                  concat (map (channel_events cfg env message) (alert_channels cfg))) in
  ((reg !! key = None \/
    exists last, reg !! key = Some last /\
                 (cooldown_minutes cfg <= (ae_now env - last) / 60)%Q) /\
   send_alert cfg env reg message = fired) \/
  ((exists last, reg !! key = Some last /\
                 ((ae_now env - last) / 60 < cooldown_minutes cfg)%Q) /\
   send_alert cfg env reg message = (reg, [])).
Proof.
  cbv zeta. unfold send_alert.
  destruct (reg !! cooldown_key message) as [last|] eqn:E.
  - destruct (Qlt_bool ((ae_now env - last) / 60) (cooldown_minutes cfg)) eqn:Q.
    + right. split; [|reflexivity]. exists last. split; [reflexivity|].
      now apply Qlt_bool_iff.
    + left. split; [|reflexivity]. right. exists last. split; [reflexivity|].
      now apply Qlt_bool_false.
  - left. split; [now left|reflexivity].
Qed.



(** ** C4 *)






(* ------------------------------------------------------------------ *)
(** ** One attempt of the transmission loop *)

Lemma collect_metrics_collected (cfg : config) (p : provider) (hi : string) :
  p_uname p = Ok hi -> collect_metrics cfg p = Ok (collected cfg p).
Proof.
  intros Hu. unfold collected, collect_metrics. rewrite Hu. reflexivity.
Qed.

Lemma error_snapshot_error_truthy (p : provider) (h : string) (e : exn) :
  truthy (dict_get_default (error_snapshot p h e) "error" PNone) = true.
Proof. reflexivity. Qed.

Lemma family_check_ok (th : list (string * num)) (m c : dict) (fam what : string) :
  dict_get m fam = Some (PDict c) -> dict_get c "percent" = None ->
  exists l, family_check th m fam what = Ok l.
Proof.
  intros Hm Hc. unfold family_check. rewrite Hm.
  destruct (threshold_get th fam) as [t|]; [|eexists; reflexivity].
  cbn [exc_bind py_get]. unfold dict_get_default. rewrite Hc.
  eexists. reflexivity.
Qed.

Lemma posts_and_sleeps_app (l1 l2 : list event) :
  posts_and_sleeps (l1 ++ l2) = (posts_and_sleeps l1 ++ posts_and_sleeps l2)%list.
Proof. unfold posts_and_sleeps. apply List.filter_app. Qed.

Lemma channel_events_quiet (cfg : config) (env : alert_env) (msg ch : string) :
  posts_and_sleeps (channel_events cfg env msg ch) = [].
Proof.
  unfold channel_events, send_slack_alert.
  destruct (String.eqb ch "slack").
  - destruct (slack_webhook_url cfg); [|reflexivity].
    destruct (ae_nodename env); [|reflexivity].
    destruct (exc_bind _ _); reflexivity.
  - destruct (String.eqb ch "email"); reflexivity.
Qed.

Lemma send_alert_quiet (cfg : config) (env : alert_env) (reg : registry) (msg : string) :
  posts_and_sleeps (snd (send_alert cfg env reg msg)) = [].
Proof.
  assert (Hf : posts_and_sleeps
     (EvAlert msg :: concat (map (channel_events cfg env msg) (alert_channels cfg))) = []).
  { change (EvAlert msg :: ?l) with ([EvAlert msg] ++ l)%list.
    rewrite posts_and_sleeps_app.
    induction (alert_channels cfg) as [|ch chs IH]; [reflexivity|].
    cbn [map concat]. rewrite posts_and_sleeps_app, channel_events_quiet.
    exact IH. }
  unfold send_alert.
  destruct (reg !! cooldown_key msg); [|exact Hf].
  destruct (Qlt_bool _ _); [reflexivity|exact Hf].
Qed.

Lemma send_alerts_quiet (cfg : config) (env : alert_env) (reg : registry)
    (msgs : list string) :
  posts_and_sleeps (snd (send_alerts cfg env reg msgs)) = [].
Proof.
  revert reg. induction msgs as [|msg rest IH]; intros reg; [reflexivity|].
  cbn [send_alerts].
  pose proof (send_alert_quiet cfg env reg msg) as H1.
  destruct (send_alert cfg env reg msg) as [reg1 evs1].
  specialize (IH reg1).
  destruct (send_alerts cfg env reg1 rest) as [reg2 evs2].
  simpl in *. rewrite posts_and_sleeps_app, H1, IH. reflexivity.
Qed.

Lemma check_alerts_collected (cfg : config) (env : alert_env) (reg : registry)
    (p : provider) (hi : string) :
  p_uname p = Ok hi ->
  truthy (dict_get_default (collected cfg p) "error" PNone) = false ->
  exists reg' aevs, check_alerts cfg env reg (collected cfg p) = Ok (reg', aevs) /\
                    posts_and_sleeps aevs = [].
Proof.
  intros Hu Ht. unfold collected, collect_metrics in *. rewrite Hu in *.
  cbn [exc_bind] in *.
  destruct (collect_body cfg p hi) as [m|e] eqn:Eb.
  2:{ rewrite error_snapshot_error_truthy in Ht. discriminate. }
  destruct (collect_body_shape cfg p hi m Eb)
    as [[c1 [H1 H1']] [[c2 [H2 H2']] [[c3 [H3 H3']] [[fs [io H4]] _]]]].
  unfold check_alerts. destruct (alerts_enabled cfg); cbn [negb].
  2:{ do 2 eexists. split; reflexivity. }
  unfold alerts_triggered.
  destruct (family_check_ok (thresholds cfg) _ _ "cpu" "CPU" H1 H1') as [l1 ->].
  destruct (family_check_ok (thresholds cfg) _ _ "memory" "memory" H2 H2') as [l2 ->].
  rewrite (disk_check_filesystems_dict _ _ _ _ H4).
  destruct (family_check_ok (thresholds cfg) _ _ "swap" "swap" H3 H3') as [l3 ->].
  cbn [exc_bind].
  exists (fst (send_alerts cfg env reg (l1 ++ l2 ++ [] ++ l3)%list)),
    (snd (send_alerts cfg env reg (l1 ++ l2 ++ [] ++ l3)%list)).
  split; [now destruct (send_alerts _ _ _ _)|apply send_alerts_quiet].
Qed.

Lemma attempt_body_posts_once (cfg : config) (env : attempt_env) (h : string)
    (reg : registry) (hi : string) :
  p_uname (at_provider env) = Ok hi ->
  exists reg' evs,
    attempt_body cfg env h reg =
      (match exc_bind (at_post env (payload_of (collected cfg (at_provider env)) h))
               raise_for_status with
       | Ok _ => Sent
       | Raise e => Failed e
       end, reg', evs) /\
    posts_and_sleeps evs =
      [EvPost (endpoint_url cfg) (payload_of (collected cfg (at_provider env)) h)
              (endpoint_timeout cfg)].
Proof.
  intros Hu. unfold attempt_body.
  rewrite (collect_metrics_collected cfg _ hi Hu).
  destruct (truthy (dict_get_default (collected cfg (at_provider env)) "error" PNone))
    eqn:Et.
  - exists reg. eexists. split.
    + destruct (exc_bind _ raise_for_status); reflexivity.
    + reflexivity.
  - destruct (check_alerts_collected cfg (at_alerts env) reg _ hi Hu Et)
      as [reg' [aevs [Hc Hq]]].
    rewrite Hc. exists reg'. eexists. split.
    + destruct (exc_bind _ raise_for_status); reflexivity.
    + rewrite !posts_and_sleeps_app, Hq. reflexivity.
Qed.

Lemma post_retryable_fails (r : Exc Z) :
  post_retryable r = true ->
  exists e, exc_bind r raise_for_status = Raise e /\ classify e = Retry.
Proof.
  destruct r as [status|e]; cbn [post_retryable exc_bind].
  - intros H. unfold raise_for_status. rewrite H. eexists. split; reflexivity.
  - destruct (classify e) eqn:Ec; [|discriminate]. intros _. eauto.
Qed.

Lemma post_accepts_ok (r : Exc Z) :
  post_accepts r = true -> exists u, exc_bind r raise_for_status = Ok u.
Proof.
  destruct r as [status|e]; cbn [post_accepts exc_bind]; [|discriminate].
  unfold raise_for_status. destruct (andb _ _); [discriminate|eauto].
Qed.

Lemma attempt_retry (cfg : config) (env : attempt_env) (h : string) (reg : registry)
    (hi : string) :
  p_uname (at_provider env) = Ok hi ->
  (forall pl, post_retryable (at_post env pl) = true) ->
  exists e reg' evs,
    attempt_body cfg env h reg = (Failed e, reg', evs) /\ classify e = Retry /\
    posts_and_sleeps evs =
      [EvPost (endpoint_url cfg) (payload_of (collected cfg (at_provider env)) h)
              (endpoint_timeout cfg)].
Proof.
  intros Hu Hr.
  destruct (attempt_body_posts_once cfg env h reg hi Hu) as [reg' [evs [Ha Hp]]].
  destruct (post_retryable_fails _ (Hr (payload_of (collected cfg (at_provider env)) h)))
    as [e [He Hc]].
  rewrite He in Ha. exists e, reg', evs. auto.
Qed.

Lemma attempt_sent (cfg : config) (env : attempt_env) (h : string) (reg : registry)
    (hi : string) :
  p_uname (at_provider env) = Ok hi ->
  (forall pl, post_accepts (at_post env pl) = true) ->
  exists reg' evs,
    attempt_body cfg env h reg = (Sent, reg', evs) /\
    posts_and_sleeps evs =
      [EvPost (endpoint_url cfg) (payload_of (collected cfg (at_provider env)) h)
              (endpoint_timeout cfg)].
Proof.
  intros Hu Ha.
  destruct (attempt_body_posts_once cfg env h reg hi Hu) as [reg' [evs [Hb Hp]]].
  destruct (post_accepts_ok _ (Ha (payload_of (collected cfg (at_provider env)) h)))
    as [u Hu'].
  rewrite Hu' in Hb. exists reg', evs. auto.
Qed.

Lemma attempts_retry_step (cfg : config) (envs : nat -> attempt_env) (h : string)
    (reg : registry) (i fuel : nat) (e : exn) (reg1 : registry) (evs1 : list event) :
  attempt_body cfg (envs i) h reg = (Failed e, reg1, evs1) -> classify e = Retry ->
  attempts cfg envs h reg i (S fuel) =
    let '(ok, reg2, evs2) := attempts cfg envs h reg1 (S i) fuel in
    (ok, reg2,
     (evs1 ++ (if Z.ltb (Z.of_nat i) (max_retries cfg - 1)
               then [EvSleep (retry_delay cfg)] else []) ++ evs2)%list).
Proof. intros H Hc. cbn [attempts]. rewrite H, Hc. reflexivity. Qed.

Lemma attempts_sent_step (cfg : config) (envs : nat -> attempt_env) (h : string)
    (reg : registry) (i fuel : nat) (reg1 : registry) (evs1 : list event) :
  attempt_body cfg (envs i) h reg = (Sent, reg1, evs1) ->
  attempts cfg envs h reg i (S fuel) = (true, reg1, evs1).
Proof. intros H. cbn [attempts]. rewrite H. reflexivity. Qed.

(** ** C3 *)

(** C3 as the code has it: with [max_retries = 3], working hostname
    lookups, and a sink whose first two POSTs fail with an exception the
    loop retries ([Timeout], [ConnectionError], or an HTTP error status)
    and whose third is accepted, [send_metrics] returns [True] after
    exactly three POSTs with one [retry_delay] sleep between consecutive
    ones; attempt [i] posts the payload built from the snapshot collected
    by attempt [i] ([collect_metrics] runs inside the loop). *)
Theorem send_metrics_recollects_per_attempt (cfg : config) (h : string)
    (envs : nat -> attempt_env) (reg : registry) :
  max_retries cfg = 3%Z ->
  (forall i, (i < 3)%nat -> exists hi, p_uname (at_provider (envs i)) = Ok hi) ->
  (forall i pl, (i < 2)%nat -> post_retryable (at_post (envs i) pl) = true) ->
  (forall pl, post_accepts (at_post (envs 2%nat) pl) = true) ->
  exists reg' evs,
    send_metrics cfg (Ok h) envs reg = Ok (true, reg', evs) /\
    posts_and_sleeps evs =
      [EvPost (endpoint_url cfg) (attempt_payload cfg envs h 0) (endpoint_timeout cfg);
       EvSleep (retry_delay cfg);
       EvPost (endpoint_url cfg) (attempt_payload cfg envs h 1) (endpoint_timeout cfg);
       EvSleep (retry_delay cfg);
       EvPost (endpoint_url cfg) (attempt_payload cfg envs h 2) (endpoint_timeout cfg)].
Proof.
  intros Hm Hu Hr Ha.
  destruct (Hu 0%nat ltac:(lia)) as [h0 Hu0].
  destruct (Hu 1%nat ltac:(lia)) as [h1 Hu1].
  destruct (Hu 2%nat ltac:(lia)) as [h2 Hu2].
  destruct (attempt_retry cfg (envs 0%nat) h reg h0 Hu0 (fun pl => Hr 0%nat pl ltac:(lia)))
    as [e0 [r0 [ev0 [A0 [C0 P0]]]]].
  destruct (attempt_retry cfg (envs 1%nat) h r0 h1 Hu1 (fun pl => Hr 1%nat pl ltac:(lia)))
    as [e1 [r1 [ev1 [A1 [C1 P1]]]]].
  destruct (attempt_sent cfg (envs 2%nat) h r1 h2 Hu2 Ha) as [r2 [ev2 [A2 P2]]].
  unfold send_metrics. rewrite Hm. cbn [exc_bind].
  change (Z.to_nat 3) with 3%nat.
  rewrite (attempts_retry_step _ _ _ _ _ _ _ _ _ A0 C0),
    (attempts_retry_step _ _ _ _ _ _ _ _ _ A1 C1),
    (attempts_sent_step _ _ _ _ _ _ _ _ A2).
  rewrite Hm. eexists; eexists; split; [reflexivity|].
  rewrite !posts_and_sleeps_app, P0, P1, P2. reflexivity.
Qed.

Lemma send_metrics_recollects_per_attempt_witness :
  (max_retries test_config = 3%Z /\
   (forall i, (i < 3)%nat -> exists hi, p_uname (at_provider (flaky_envs i)) = Ok hi) /\
   (forall i pl, (i < 2)%nat -> post_retryable (at_post (flaky_envs i) pl) = true) /\
   (forall pl, post_accepts (at_post (flaky_envs 2%nat) pl) = true)) /\
  exists reg' evs,
    send_metrics test_config (Ok "test-host") flaky_envs ∅ = Ok (true, reg', evs) /\
    posts_and_sleeps evs =
      [EvPost (endpoint_url test_config) (attempt_payload test_config flaky_envs "test-host" 0)
              (endpoint_timeout test_config);
       EvSleep (retry_delay test_config);
       EvPost (endpoint_url test_config) (attempt_payload test_config flaky_envs "test-host" 1)
              (endpoint_timeout test_config);
       EvSleep (retry_delay test_config);
       EvPost (endpoint_url test_config) (attempt_payload test_config flaky_envs "test-host" 2)
              (endpoint_timeout test_config)].
Proof.
  assert (Hu : forall i, (i < 3)%nat -> exists hi, p_uname (at_provider (flaky_envs i)) = Ok hi)
    by (intros i _; exists "test-host"; reflexivity).
  assert (Hr : forall i pl, (i < 2)%nat -> post_retryable (at_post (flaky_envs i) pl) = true).
  { intros [|[|i]] pl Hi; [reflexivity|reflexivity|lia]. }
  assert (Ha : forall pl, post_accepts (at_post (flaky_envs 2%nat) pl) = true)
    by reflexivity.
  split; [repeat split; assumption|].
  exact (send_metrics_recollects_per_attempt test_config "test-host" flaky_envs ∅
           eq_refl Hu Hr Ha).
Defined.

(** C3 fails: when the host's readings change between attempts (here
    only the timestamp), the first and the third POSTed payloads differ,
    although [send_metrics] returns [True] after three POSTs. *)
Lemma send_metrics_payloads_differ :
  match send_metrics test_config (Ok "test-host") flaky_envs ∅ with
  | Ok (true, _, evs) =>
      length (posts evs) = 3%nat /\ nth 0 (posts evs) PNone <> nth 2 (posts evs) PNone
  | _ => False
  end.
Proof. vm_compute. split; [reflexivity|discriminate]. Qed.

(** ** C6 *)

(** C6: with [max_retries = 3], working hostname lookups, and a sink
    that always raises [Timeout], [send_metrics] returns [False] after
    exactly three POSTs; the only sleeps are the fixed [retry_delay]
    between consecutive POSTs, none after the last one. *)
Theorem send_metrics_timeouts_exhaust (cfg : config) (h : string)
    (envs : nat -> attempt_env) (reg : registry) :
  max_retries cfg = 3%Z ->
  (forall i, (i < 3)%nat -> exists hi, p_uname (at_provider (envs i)) = Ok hi) ->
  (forall i pl, (i < 3)%nat -> exists msg, at_post (envs i) pl = Raise (mkExn ReqTimeout msg)) ->
  exists reg' evs,
    send_metrics cfg (Ok h) envs reg = Ok (false, reg', evs) /\
    posts_and_sleeps evs =
      [EvPost (endpoint_url cfg) (attempt_payload cfg envs h 0) (endpoint_timeout cfg);
       EvSleep (retry_delay cfg);
       EvPost (endpoint_url cfg) (attempt_payload cfg envs h 1) (endpoint_timeout cfg);
       EvSleep (retry_delay cfg);
       EvPost (endpoint_url cfg) (attempt_payload cfg envs h 2) (endpoint_timeout cfg)].
Proof.
  intros Hm Hu Ht.
  assert (Hr : forall i pl, (i < 3)%nat -> post_retryable (at_post (envs i) pl) = true).
  { intros i pl Hi. destruct (Ht i pl Hi) as [msg ->]. reflexivity. }
  destruct (Hu 0%nat ltac:(lia)) as [h0 Hu0].
  destruct (Hu 1%nat ltac:(lia)) as [h1 Hu1].
  destruct (Hu 2%nat ltac:(lia)) as [h2 Hu2].
  destruct (attempt_retry cfg (envs 0%nat) h reg h0 Hu0 (fun pl => Hr 0%nat pl ltac:(lia)))
    as [e0 [r0 [ev0 [A0 [C0 P0]]]]].
  destruct (attempt_retry cfg (envs 1%nat) h r0 h1 Hu1 (fun pl => Hr 1%nat pl ltac:(lia)))
    as [e1 [r1 [ev1 [A1 [C1 P1]]]]].
  destruct (attempt_retry cfg (envs 2%nat) h r1 h2 Hu2 (fun pl => Hr 2%nat pl ltac:(lia)))
    as [e2 [r2 [ev2 [A2 [C2 P2]]]]].
  unfold send_metrics. rewrite Hm. cbn [exc_bind].
  change (Z.to_nat 3) with 3%nat.
  rewrite (attempts_retry_step _ _ _ _ _ _ _ _ _ A0 C0),
    (attempts_retry_step _ _ _ _ _ _ _ _ _ A1 C1),
    (attempts_retry_step _ _ _ _ _ _ _ _ _ A2 C2).
  cbn [attempts]. rewrite Hm. eexists; eexists; split; [reflexivity|].
  rewrite !posts_and_sleeps_app, P0, P1, P2. reflexivity.
Qed.

Lemma send_metrics_timeouts_exhaust_witness :
  (max_retries test_config = 3%Z /\
   (forall i, (i < 3)%nat -> exists hi, p_uname (at_provider (timeout_envs i)) = Ok hi) /\
   (forall i pl, (i < 3)%nat ->
      exists msg, at_post (timeout_envs i) pl = Raise (mkExn ReqTimeout msg))) /\
  exists reg' evs,
    send_metrics test_config (Ok "test-host") timeout_envs ∅ = Ok (false, reg', evs) /\
    posts_and_sleeps evs =
      [EvPost (endpoint_url test_config) (attempt_payload test_config timeout_envs "test-host" 0)
              (endpoint_timeout test_config);
       EvSleep (retry_delay test_config);
       EvPost (endpoint_url test_config) (attempt_payload test_config timeout_envs "test-host" 1)
              (endpoint_timeout test_config);
       EvSleep (retry_delay test_config);
       EvPost (endpoint_url test_config) (attempt_payload test_config timeout_envs "test-host" 2)
              (endpoint_timeout test_config)].
Proof.
  assert (Hu : forall i, (i < 3)%nat -> exists hi, p_uname (at_provider (timeout_envs i)) = Ok hi)
    by (intros i _; exists "test-host"; reflexivity).
  assert (Ht : forall i pl, (i < 3)%nat ->
            exists msg, at_post (timeout_envs i) pl = Raise (mkExn ReqTimeout msg))
    by (intros i pl _; eexists; reflexivity).
  split; [repeat split; assumption|].
  exact (send_metrics_timeouts_exhaust test_config "test-host" timeout_envs ∅ eq_refl Hu Ht).
Defined.

(** ** C7 *)

(** C7: an attempt failing with an exception that is neither a
    [Timeout], a [ConnectionError] nor an [HTTPError] ends the loop at
    once, whatever the number of attempts left: the result is [False]
    and nothing (no sleep, no further attempt) follows the events of the
    failed attempt. *)
Theorem unexpected_error_aborts (cfg : config) (envs : nat -> attempt_env) (h : string)
    (reg : registry) (i fuel : nat) (e : exn) (reg' : registry) (evs : list event) :
  attempt_body cfg (envs i) h reg = (Failed e, reg', evs) ->
  classify e = Abort ->
  attempts cfg envs h reg i (S fuel) = (false, reg', evs).
Proof. intros H Hc. cbn [attempts]. rewrite H, Hc. reflexivity. Qed.

Lemma unexpected_error_aborts_witness :
  (attempt_body test_config json_error_env "test-host" ∅ =
     (Failed json_error, ∅,
      [EvCheckAlerts;
       EvPost (endpoint_url test_config) (payload_of sample_snapshot "test-host")
              (endpoint_timeout test_config)]) /\
   classify json_error = Abort) /\
  attempts test_config (fun _ => json_error_env) "test-host" ∅ 0 3 =
    (false, ∅,
     [EvCheckAlerts;
      EvPost (endpoint_url test_config) (payload_of sample_snapshot "test-host")
             (endpoint_timeout test_config)]).
Proof.
  assert (Hb : attempt_body test_config json_error_env "test-host" ∅ =
     (Failed json_error, ∅,
      [EvCheckAlerts;
       EvPost (endpoint_url test_config) (payload_of sample_snapshot "test-host")
              (endpoint_timeout test_config)])) by (vm_compute; reflexivity).
  split; [split; [exact Hb|reflexivity]|].
  exact (unexpected_error_aborts test_config (fun _ => json_error_env) "test-host" ∅ 0 2
           json_error ∅ _ Hb eq_refl).
Defined.

(** ** C8 *)

(** C8: when the snapshot carries a truthy ['error'] field, the attempt
    does not run [check_alerts] (no alert event, the cooldown registry is
    unchanged) and its only event is the POST of that snapshot to the
    endpoint. *)
Theorem error_snapshot_sent_without_alerts (cfg : config) (env : attempt_env)
    (h : string) (reg : registry) (m : dict) :
  collect_metrics cfg (at_provider env) = Ok m ->
  truthy (dict_get_default m "error" PNone) = true ->
  attempt_body cfg env h reg =
    (match exc_bind (at_post env (payload_of m h)) raise_for_status with
     | Ok _ => Sent
     | Raise e => Failed e
     end, reg,
     [EvPost (endpoint_url cfg) (payload_of m h) (endpoint_timeout cfg)]).
Proof.
  intros Hc Ht. unfold attempt_body. rewrite Hc, Ht.
  destruct (exc_bind _ raise_for_status); reflexivity.
Qed.

Lemma error_snapshot_sent_without_alerts_witness :
  (collect_metrics test_config sensor_failure_provider =
     Ok (error_snapshot sensor_failure_provider "test-host" sensor_error) /\
   truthy (dict_get_default (error_snapshot sensor_failure_provider "test-host" sensor_error)
             "error" PNone) = true) /\
  attempt_body test_config sensor_failure_env "test-host" ∅ =
    (Sent, ∅,
     [EvPost (endpoint_url test_config)
             (payload_of (error_snapshot sensor_failure_provider "test-host" sensor_error)
                         "test-host")
             (endpoint_timeout test_config)]).
Proof.
  assert (Hc : collect_metrics test_config sensor_failure_provider =
     Ok (error_snapshot sensor_failure_provider "test-host" sensor_error))
    by (vm_compute; reflexivity).
  split; [split; [exact Hc|reflexivity]|].
  exact (error_snapshot_sent_without_alerts test_config sensor_failure_env "test-host" ∅ _
           Hc eq_refl).
Defined.

(** ** C9 *)


(** The disk loop raises only the exception of the [disk_usage] call of
    some non-pseudo partition, and only when it is not an [OSError]. *)
Lemma disk_loop_raise_source (usage_of : string -> Exc usage) (parts : list partition)
    (e : exn) :
  disk_loop usage_of parts = Raise e ->
  is_oserror (exn_cls e) = false /\
  exists pt, In pt parts /\ nonpseudo pt = true /\ usage_of (pt_mountpoint pt) = Raise e.
Proof.
  induction parts as [|pt parts IH]; cbn [disk_loop]; intros H; [discriminate|].
  destruct (existsb (String.eqb (pt_fstype pt)) skipped_fstypes) eqn:Es.
  - destruct (IH H) as [Ho (pt' & ? & ? & ?)]. split; [exact Ho|].
    exists pt'. simpl. auto.
  - destruct (usage_of (pt_mountpoint pt)) as [u|e'] eqn:Eu.
    + destruct (disk_loop usage_of parts) eqn:Etl; cbn [exc_bind] in H; [discriminate|].
      injection H as ->. destruct (IH eq_refl) as [Ho (pt' & ? & ? & ?)].
      split; [exact Ho|]. exists pt'. simpl. auto.
    + destruct (is_oserror (exn_cls e')) eqn:Eo.
      * destruct (IH H) as [Ho (pt' & ? & ? & ?)]. split; [exact Ho|].
        exists pt'. simpl. auto.
      * injection H as ->. split; [exact Eo|]. exists pt.
        split; [now left|]. split; [unfold nonpseudo; now rewrite Es|exact Eu].
Qed.




(* ------------------------------------------------------------------ *)
(** ** Further properties of the collector *)

(** Extra (disk loop of [collect_metrics], lines 177-216): when every
    [disk_usage] call on a non-pseudo partition either answers or raises an
    [OSError], the loop never raises and keeps exactly one record per
    answering non-pseudo partition, in partition order; the others are
    skipped. *)
Lemma disk_loop_readable (usage_of : string -> Exc usage) (parts : list partition) :
  (forall pt e, In pt parts -> nonpseudo pt = true ->
     usage_of (pt_mountpoint pt) = Raise e -> is_oserror (exn_cls e) = true) ->
  disk_loop usage_of parts = Ok (readable_records usage_of parts).
Proof.
  induction parts as [|pt parts IH]; intros H; [reflexivity|].
  assert (IH' : disk_loop usage_of parts = Ok (readable_records usage_of parts))
    by (apply IH; intros pt' e Hin; apply H; now right).
  cbn [disk_loop readable_records flat_map]. unfold nonpseudo in *.
  destruct (existsb (String.eqb (pt_fstype pt)) skipped_fstypes) eqn:Es;
    cbn [negb]; [exact IH'|].
  destruct (usage_of (pt_mountpoint pt)) as [u|e] eqn:Eu.
  - rewrite IH'. reflexivity.
  - rewrite (H pt e (or_introl eq_refl)); [exact IH'| |exact Eu].
    now rewrite Es.
Qed.

Lemma disk_loop_readable_witness :
  (forall pt e, In pt (sample_partitions ++ [nfs_partition]) -> nonpseudo pt = true ->
     nfs_usage (pt_mountpoint pt) = Raise e -> is_oserror (exn_cls e) = true) /\
  disk_loop nfs_usage (sample_partitions ++ [nfs_partition]) =
    Ok (readable_records nfs_usage (sample_partitions ++ [nfs_partition])).
Proof.
  assert (H : forall pt e, In pt (sample_partitions ++ [nfs_partition]) -> nonpseudo pt = true ->
     nfs_usage (pt_mountpoint pt) = Raise e -> is_oserror (exn_cls e) = true).
  { intros pt e Hin Hnp Hu.
    repeat (destruct Hin as [<-|Hin]; [vm_compute in Hnp, Hu; try discriminate;
                                        injection Hu as <-; reflexivity|]).
    destruct Hin. }
  split; [exact H|]. exact (disk_loop_readable _ _ H).
Defined.

(** Extra (disk loop): the loop raises only the exception of the
    [disk_usage] call of some non-pseudo partition, and only when it is not
    an [OSError]. *)
Theorem disk_loop_raise (usage_of : string -> Exc usage) (parts : list partition) (e : exn) :
  disk_loop usage_of parts = Raise e ->
  is_oserror (exn_cls e) = false /\
  exists pt, In pt parts /\ nonpseudo pt = true /\ usage_of (pt_mountpoint pt) = Raise e.
Proof. apply disk_loop_raise_source. Qed.

Lemma disk_loop_raise_witness :
  disk_loop (fun _ => raise_ ValueError "bad statvfs") sample_partitions =
    Raise (mkExn ValueError "bad statvfs") /\
  (is_oserror (exn_cls (mkExn ValueError "bad statvfs")) = false /\
   exists pt, In pt sample_partitions /\ nonpseudo pt = true /\
     (fun _ : string => @raise_ usage ValueError "bad statvfs") (pt_mountpoint pt) =
       Raise (mkExn ValueError "bad statvfs")).
Proof.
  assert (H : disk_loop (fun _ => raise_ ValueError "bad statvfs") sample_partitions =
                Raise (mkExn ValueError "bad statvfs")) by reflexivity.
  split; [exact H|]. exact (disk_loop_raise _ _ _ H).
Defined.

(** Extra (disk loop): the result does not depend on what [disk_usage]
    answers for [tmpfs], [devtmpfs], [squashfs] and [overlay] partitions, and
    every record comes from a non-pseudo partition whose usage call answered. *)
Theorem disk_loop_pseudo (usage_of usage_of' : string -> Exc usage) (parts : list partition) :
  ((forall pt, In pt parts -> nonpseudo pt = true ->
      usage_of (pt_mountpoint pt) = usage_of' (pt_mountpoint pt)) ->
   disk_loop usage_of parts = disk_loop usage_of' parts) /\
  (forall fs, disk_loop usage_of parts = Ok fs ->
   forall x, In x fs -> exists pt u,
     In pt parts /\ nonpseudo pt = true /\ usage_of (pt_mountpoint pt) = Ok u /\
     x = filesystem_data pt u).
Proof.
  split.
  - induction parts as [|pt parts IH]; intros H; [reflexivity|].
    cbn [disk_loop]. unfold nonpseudo in H.
    rewrite IH by (intros pt' Hin; apply H; now right).
    destruct (existsb (String.eqb (pt_fstype pt)) skipped_fstypes) eqn:Es; [reflexivity|].
    rewrite (H pt (or_introl eq_refl)) by (now rewrite Es). reflexivity.
  - induction parts as [|pt parts IH]; cbn [disk_loop]; intros fs H x Hx.
    + injection H as <-. destruct Hx.
    + destruct (existsb (String.eqb (pt_fstype pt)) skipped_fstypes) eqn:Es.
      * destruct (IH fs H x Hx) as (pt' & u & ? & ? & ? & ?). exists pt', u.
        simpl. auto.
      * destruct (usage_of (pt_mountpoint pt)) as [u|e] eqn:Eu.
        -- destruct (disk_loop usage_of parts) as [tl|e] eqn:Etl; cbn [exc_bind] in H;
             [|discriminate].
           injection H as <-. destruct Hx as [<-|Hx].
           ++ exists pt, u. split; [now left|].
              split; [unfold nonpseudo; now rewrite Es|auto].
           ++ destruct (IH tl eq_refl x Hx) as (pt' & u' & ? & ? & ? & ?).
              exists pt', u'. simpl. auto.
        -- destruct (is_oserror (exn_cls e)); [|discriminate].
           destruct (IH fs H x Hx) as (pt' & u' & ? & ? & ? & ?). exists pt', u'.
           simpl. auto.
Qed.

Lemma dict_set_keys_new (d : dict) (k : string) (v : pyval) :
  dict_has d k = false -> map fst (dict_set d k v) = (map fst d ++ [k])%list.
Proof.
  unfold dict_has. induction d as [|[k' v'] d IH]; intros H; [reflexivity|].
  cbn [dict_get] in H. cbn [dict_set map fst].
  destruct (String.eqb k k'); [discriminate|]. simpl. now rewrite IH.
Qed.

(** Extra (metrics dict of [collect_metrics], lines 232-283): a
    successful snapshot has exactly the keys timestamp, hostname,
    collection_duration_ms, cpu, memory, swap and disk in that order, then
    network when it is enabled and the counters answer, then top_processes
    when it is enabled and the process scan succeeds. *)
Theorem collect_body_keys (cfg : config) (p : provider) (h : string) (m : dict) :
  collect_body cfg p h = Ok m ->
  map fst m =
    (["timestamp"; "hostname"; "collection_duration_ms"; "cpu"; "memory"; "swap"; "disk"] ++
     (if include_network cfg && exc_ok (p_net_io p) then ["network"] else []) ++
     (if include_processes cfg && exc_ok (top_processes p) then ["top_processes"] else []))%list.
Proof.
  unfold collect_body. intros H. exc_inv H. injection H as <-.
  unfold add_processes, add_network.
  destruct (include_network cfg), (p_net_io p), (include_processes cfg), (top_processes p);
    cbn [andb exc_ok];
    repeat (rewrite dict_set_keys_new; [|reflexivity]); try reflexivity.
  all: rewrite dict_set_keys_new; reflexivity.
Qed.

Lemma collect_body_keys_witness :
  collect_body test_config (sample_provider sample_time) "test-host" = Ok sample_snapshot /\
  map fst sample_snapshot =
    (["timestamp"; "hostname"; "collection_duration_ms"; "cpu"; "memory"; "swap"; "disk"] ++
     (if include_network test_config && exc_ok (p_net_io (sample_provider sample_time))
      then ["network"] else []) ++
     (if include_processes test_config && exc_ok (top_processes (sample_provider sample_time))
      then ["top_processes"] else []))%list.
Proof.
  assert (H : collect_body test_config (sample_provider sample_time) "test-host" =
                Ok sample_snapshot) by (vm_compute; reflexivity).
  split; [exact H|]. exact (collect_body_keys _ _ _ _ H).
Defined.

Section Rounding.
Local Open Scope Q_scope.













(** The float model on known values: [0.1] is the binary64 number
    [3602879701896397 * 2^-55]; [(23 / 160) * 100] is the float just below
    [14.375], so [round(., 2)] gives [14.37]; [round(0.125, 2)] is the
    float nearest to [0.12]. *)
Example fl_one_tenth : fl (1 # 10) = 3602879701896397 # 36028797018963968.
Proof. vm_compute. reflexivity. Qed.

Example float_percent_23_160 :
  float_mul (int_truediv 23 160) 100 = (8092405580431359 # 562949953421312)%Q /\
  (float_mul (int_truediv 23 160) 100 < 14375 # 1000)%Q /\
  percent_used_of 23 160 = PFloat (fl (1437 # 100)).
Proof. vm_compute. repeat split; reflexivity. Qed.

Example round2_one_eighth : round2 (1 # 8) = fl (12 # 100).
Proof. vm_compute. reflexivity. Qed.



End Rounding.

Lemma check_alerts_quiet (cfg : config) (env : alert_env) (reg reg' : registry)
    (m : dict) (aevs : list event) :
  check_alerts cfg env reg m = Ok (reg', aevs) -> posts_and_sleeps aevs = [].
Proof.
  unfold check_alerts. destruct (negb (alerts_enabled cfg)).
  - intros H. injection H as _ <-. reflexivity.
  - destruct (alerts_triggered cfg m) as [msgs|e]; cbn [exc_bind]; [|discriminate].
    intros H. injection H as H. pose proof (send_alerts_quiet cfg env reg msgs) as Hq.
    rewrite H in Hq. exact Hq.
Qed.

Lemma posts_ps (evs : list event) : posts evs = posts (posts_and_sleeps evs).
Proof.
  induction evs as [|ev evs IH]; [reflexivity|].
  destruct ev; cbn [posts_and_sleeps List.filter posts flat_map] in *;
    unfold posts in *; cbn [flat_map]; try rewrite IH; reflexivity.
Qed.

Lemma sleeps_ps (evs : list event) : sleeps evs = sleeps (posts_and_sleeps evs).
Proof.
  induction evs as [|ev evs IH]; [reflexivity|].
  destruct ev; unfold posts_and_sleeps in *; cbn [List.filter] in *;
    unfold sleeps in *; cbn [flat_map] in *; try rewrite IH; reflexivity.
Qed.

Lemma posts_app (l1 l2 : list event) : posts (l1 ++ l2) = (posts l1 ++ posts l2)%list.
Proof. unfold posts. apply flat_map_app. Qed.

Lemma sleeps_app (l1 l2 : list event) : sleeps (l1 ++ l2) = (sleeps l1 ++ sleeps l2)%list.
Proof. unfold sleeps. apply flat_map_app. Qed.

Lemma attempt_body_events (cfg : config) (env : attempt_env) (h : string)
    (reg reg' : registry) (out : attempt_outcome) (evs : list event) :
  attempt_body cfg env h reg = (out, reg', evs) ->
  (posts_and_sleeps evs = [] \/
   exists pl, posts_and_sleeps evs = [EvPost (endpoint_url cfg) pl (endpoint_timeout cfg)]) /\
  (out = Sent -> exists evs0 pl, evs = (evs0 ++ [EvPost (endpoint_url cfg) pl (endpoint_timeout cfg)])%list).
Proof.
  unfold attempt_body.
  destruct (collect_metrics cfg (at_provider env)) as [m|e].
  2:{ intros H. injection H as <- _ <-. split; [now left|discriminate]. }
  destruct (truthy (dict_get_default m "error" PNone)).
  - destruct (exc_bind _ raise_for_status); intros H; injection H as <- _ <-;
      (split; [right; eexists; reflexivity|]).
    + intros _. exists []. eexists. reflexivity.
    + discriminate.
  - destruct (check_alerts cfg (at_alerts env) reg m) as [[r aevs]|e] eqn:Ec.
    2:{ intros H. injection H as <- _ <-. split; [now left|discriminate]. }
    pose proof (check_alerts_quiet _ _ _ _ _ _ Ec) as Hq.
    assert (Hp : forall pl, posts_and_sleeps
               ([EvCheckAlerts] ++ aevs ++ [EvPost (endpoint_url cfg) pl (endpoint_timeout cfg)])%list
               = [EvPost (endpoint_url cfg) pl (endpoint_timeout cfg)]).
    { intros pl. rewrite !posts_and_sleeps_app, Hq. reflexivity. }
    destruct (exc_bind _ raise_for_status); intros H; injection H as <- _ <-;
      (split; [right; eexists; apply Hp|]).
    + intros _. exists ([EvCheckAlerts] ++ aevs)%list. eexists.
      rewrite <- app_assoc. reflexivity.
    + discriminate.
Qed.

Lemma attempt_body_counts (cfg : config) (env : attempt_env) (h : string)
    (reg reg' : registry) (out : attempt_outcome) (evs : list event) :
  attempt_body cfg env h reg = (out, reg', evs) ->
  (length (posts evs) <= 1)%nat /\ sleeps evs = [].
Proof.
  intros H. destruct (attempt_body_events _ _ _ _ _ _ _ H) as [[Hp|[pl Hp]] _];
    rewrite posts_ps, sleeps_ps, Hp; simpl; auto.
Qed.

Lemma attempts_bounded (cfg : config) (envs : nat -> attempt_env) (h : string) (fuel : nat) :
  forall (reg : registry) (i : nat) (ok : bool) (reg' : registry) (evs : list event),
  attempts cfg envs h reg i fuel = (ok, reg', evs) ->
  (length (posts evs) <= fuel)%nat /\
  (Z.of_nat (length (sleeps evs)) <=
     Z.max 0 (Z.min (Z.of_nat i + Z.of_nat fuel) (max_retries cfg - 1) - Z.of_nat i))%Z /\
  Forall (fun d => d = retry_delay cfg) (sleeps evs).
Proof.
  induction fuel as [|fuel IH]; intros reg i ok reg' evs H.
  - cbn [attempts] in H. injection H as _ _ <-. simpl. repeat split; [lia|lia|constructor].
  - cbn [attempts] in H.
    destruct (attempt_body cfg (envs i) h reg) as [[out r1] evs1] eqn:A.
    destruct (attempt_body_counts _ _ _ _ _ _ _ A) as [Hp1 Hs1].
    destruct out as [|e].
    { injection H as _ _ <-. rewrite Hs1. simpl. repeat split; [lia|lia|constructor]. }
    destruct (classify e).
    2:{ injection H as _ _ <-. rewrite Hs1. simpl. repeat split; [lia|lia|constructor]. }
    destruct (attempts cfg envs h r1 (S i) fuel) as [[ok2 r2] evs2] eqn:R.
    injection H as _ _ <-.
    destruct (IH r1 (S i) ok2 r2 evs2 R) as (Hp2 & Hs2 & Hf2).
    rewrite !posts_app, !sleeps_app, !length_app, Hs1.
    destruct (Z.ltb (Z.of_nat i) (max_retries cfg - 1)) eqn:Elt.
    + apply Z.ltb_lt in Elt. cbn [posts sleeps flat_map app length] in *.
      repeat split; [lia|lia|].
      constructor; [reflexivity|exact Hf2].
    + apply Z.ltb_ge in Elt. cbn [posts sleeps flat_map app length] in *.
      repeat split; [lia|lia|exact Hf2].
Qed.

(** Extra ([send_metrics]): a transmission makes at most [max_retries]
    POSTs and at most [max_retries - 1] sleeps, each of [retry_delay]
    seconds. *)
Theorem send_metrics_bounded (cfg : config) (h : string) (envs : nat -> attempt_env)
    (reg reg' : registry) (ok : bool) (evs : list event) :
  send_metrics cfg (Ok h) envs reg = Ok (ok, reg', evs) ->
  (Z.of_nat (length (posts evs)) <= Z.max 0 (max_retries cfg))%Z /\
  (Z.of_nat (length (sleeps evs)) <= Z.max 0 (max_retries cfg - 1))%Z /\
  Forall (fun d => d = retry_delay cfg) (sleeps evs).
Proof.
  unfold send_metrics. cbn [exc_bind]. intros H. injection H as H.
  destruct (attempts_bounded _ _ _ _ _ _ _ _ _ H) as (Hp & Hs & Hf).
  repeat split; [lia|lia|exact Hf].
Qed.

Lemma send_metrics_bounded_witness :
  send_metrics test_config (Ok "test-host") timeout_envs ∅ =
    Ok (fst (fst (attempts test_config timeout_envs "test-host" ∅ 0 3)),
        snd (fst (attempts test_config timeout_envs "test-host" ∅ 0 3)),
        snd (attempts test_config timeout_envs "test-host" ∅ 0 3)) /\
  ((Z.of_nat (length (posts (snd (attempts test_config timeout_envs "test-host" ∅ 0 3))))
      <= Z.max 0 (max_retries test_config))%Z /\
   (Z.of_nat (length (sleeps (snd (attempts test_config timeout_envs "test-host" ∅ 0 3))))
      <= Z.max 0 (max_retries test_config - 1))%Z /\
   Forall (fun d => d = retry_delay test_config)
     (sleeps (snd (attempts test_config timeout_envs "test-host" ∅ 0 3)))).
Proof.
  assert (H : send_metrics test_config (Ok "test-host") timeout_envs ∅ =
    Ok (fst (fst (attempts test_config timeout_envs "test-host" ∅ 0 3)),
        snd (fst (attempts test_config timeout_envs "test-host" ∅ 0 3)),
        snd (attempts test_config timeout_envs "test-host" ∅ 0 3))) by (vm_compute; reflexivity).
  split; [exact H|]. exact (send_metrics_bounded _ _ _ _ _ _ _ H).
Defined.

(** Extra ([send_metrics]): with [max_retries <= 0] nothing is collected
    or posted, and [False] is returned. *)
Theorem send_metrics_no_attempt (cfg : config) (h : string) (envs : nat -> attempt_env)
    (reg : registry) :
  (max_retries cfg <= 0)%Z ->
  send_metrics cfg (Ok h) envs reg = Ok (false, reg, []).
Proof.
  intros Hm. unfold send_metrics. cbn [exc_bind].
  replace (Z.to_nat (max_retries cfg)) with 0%nat by lia. reflexivity.
Qed.

Lemma send_metrics_no_attempt_witness :
  (max_retries (config_with_retries test_config 0) <= 0)%Z /\
  send_metrics (config_with_retries test_config 0) (Ok "test-host") timeout_envs ∅ =
    Ok (false, ∅, []).
Proof.
  assert (H : (max_retries (config_with_retries test_config 0) <= 0)%Z) by (simpl; lia).
  split; [exact H|]. exact (send_metrics_no_attempt _ _ _ _ H).
Defined.

Lemma attempts_true_ends_in_post (cfg : config) (envs : nat -> attempt_env) (h : string)
    (fuel : nat) :
  forall (reg : registry) (i : nat) (reg' : registry) (evs : list event),
  attempts cfg envs h reg i fuel = (true, reg', evs) ->
  exists evs0 pl, evs = (evs0 ++ [EvPost (endpoint_url cfg) pl (endpoint_timeout cfg)])%list.
Proof.
  induction fuel as [|fuel IH]; intros reg i reg' evs H; cbn [attempts] in H;
    [discriminate|].
  destruct (attempt_body cfg (envs i) h reg) as [[out r1] evs1] eqn:A.
  destruct (attempt_body_events _ _ _ _ _ _ _ A) as [_ Hs].
  destruct out as [|e].
  - injection H as _ <-. now apply Hs.
  - destruct (classify e); [|discriminate].
    destruct (attempts cfg envs h r1 (S i) fuel) as [[ok2 r2] evs2] eqn:R.
    injection H as -> _ <-.
    destruct (IH r1 (S i) r2 evs2 R) as (evs0 & pl & ->).
    exists (evs1 ++ (if Z.ltb (Z.of_nat i) (max_retries cfg - 1)
                     then [EvSleep (retry_delay cfg)] else []) ++ evs0)%list, pl.
    rewrite !app_assoc. reflexivity.
Qed.

(** Extra ([send_metrics]): when it returns [True], its last effect is a
    POST to the configured endpoint with the configured timeout. *)
Theorem send_metrics_true_ends_in_post (cfg : config) (h : string)
    (envs : nat -> attempt_env) (reg reg' : registry) (evs : list event) :
  send_metrics cfg (Ok h) envs reg = Ok (true, reg', evs) ->
  exists evs0 pl, evs = (evs0 ++ [EvPost (endpoint_url cfg) pl (endpoint_timeout cfg)])%list.
Proof.
  unfold send_metrics. cbn [exc_bind]. intros H. injection H as H.
  exact (attempts_true_ends_in_post _ _ _ _ _ _ _ _ H).
Qed.

Lemma send_metrics_true_ends_in_post_witness :
  send_metrics test_config (Ok "test-host") flaky_envs ∅ =
    Ok (true, snd (fst (attempts test_config flaky_envs "test-host" ∅ 0 3)),
        snd (attempts test_config flaky_envs "test-host" ∅ 0 3)) /\
  exists evs0 pl, snd (attempts test_config flaky_envs "test-host" ∅ 0 3) =
    (evs0 ++ [EvPost (endpoint_url test_config) pl (endpoint_timeout test_config)])%list.
Proof.
  assert (H : send_metrics test_config (Ok "test-host") flaky_envs ∅ =
    Ok (true, snd (fst (attempts test_config flaky_envs "test-host" ∅ 0 3)),
        snd (attempts test_config flaky_envs "test-host" ∅ 0 3))) by (vm_compute; reflexivity).
  split; [exact H|]. exact (send_metrics_true_ends_in_post _ _ _ _ _ _ H).
Defined.

Lemma send_alert_held (cfg : config) (env : alert_env) (reg : registry) (m : string) :
  held cfg env reg m -> send_alert cfg env reg m = (reg, []).
Proof.
  intros (last & E & Q). unfold send_alert. rewrite E, Q. reflexivity.
Qed.

Lemma send_alert_holds (cfg : config) (env : alert_env) (reg : registry) (m : string) :
  (0 < cooldown_minutes cfg)%Q ->
  held cfg env (fst (send_alert cfg env reg m)) m /\
  (forall m', held cfg env reg m' -> held cfg env (fst (send_alert cfg env reg m)) m').
Proof.
  intros Hc.
  assert (Hnow : Qlt_bool ((ae_now env - ae_now env) / 60) (cooldown_minutes cfg) = true).
  { apply Qlt_bool_iff.
    assert (E : ((ae_now env - ae_now env) / 60 == 0)%Q).
    { unfold Qminus, Qdiv. rewrite Qplus_opp_r. apply Qmult_0_l. }
    rewrite E. exact Hc. }
  assert (Hins : forall m', held cfg env reg m' ->
            held cfg env (<[cooldown_key m := ae_now env]> reg) m').
  { intros m' (last & E & Q). unfold held.
    destruct (decide (cooldown_key m = cooldown_key m')) as [Heq|Hne].
    - rewrite Heq, lookup_insert_eq. eauto.
    - rewrite lookup_insert_ne by exact Hne. eauto. }
  assert (Hfresh : held cfg env (<[cooldown_key m := ae_now env]> reg) m).
  { exists (ae_now env). rewrite lookup_insert_eq. auto. }
  unfold send_alert.
  destruct (reg !! cooldown_key m) as [last|] eqn:E; [|split; [exact Hfresh|exact Hins]].
  destruct (Qlt_bool ((ae_now env - last) / 60) (cooldown_minutes cfg)) eqn:Q.
  - split; [exists last; auto|auto].
  - split; [exact Hfresh|exact Hins].
Qed.

Lemma send_alerts_holds (cfg : config) (env : alert_env) (msgs : list string) :
  (0 < cooldown_minutes cfg)%Q ->
  forall reg, (forall m', held cfg env reg m' ->
                 held cfg env (fst (send_alerts cfg env reg msgs)) m') /\
              (forall m, In m msgs -> held cfg env (fst (send_alerts cfg env reg msgs)) m).
Proof.
  intros Hc. induction msgs as [|m rest IH]; intros reg; cbn [send_alerts].
  - split; [auto|intros m []].
  - destruct (send_alert_holds cfg env reg m Hc) as [Hm Hk].
    destruct (send_alert cfg env reg m) as [reg1 evs1] eqn:E. cbn [fst] in *.
    destruct (IH reg1) as [Hk' Hin'].
    destruct (send_alerts cfg env reg1 rest) as [reg2 evs2]. cbn [fst] in *.
    split; [auto|]. intros m' [<-|Hin]; auto.
Qed.

Lemma send_alerts_all_held (cfg : config) (env : alert_env) (msgs : list string) :
  forall reg, (forall m, In m msgs -> held cfg env reg m) ->
  send_alerts cfg env reg msgs = (reg, []).
Proof.
  induction msgs as [|m rest IH]; intros reg H; [reflexivity|].
  cbn [send_alerts]. rewrite send_alert_held by (apply H; now left).
  rewrite IH by (intros m' Hm'; apply H; now right). reflexivity.
Qed.

(** Extra ([check_alerts] with [_send_alert]): with a positive cooldown,
    evaluating the same snapshot again at the same time dispatches nothing
    and leaves the cooldown registry unchanged. *)
Theorem check_alerts_repeat (cfg : config) (env : alert_env) (reg reg1 : registry)
    (m : dict) (evs1 : list event) :
  (0 < cooldown_minutes cfg)%Q ->
  check_alerts cfg env reg m = Ok (reg1, evs1) ->
  check_alerts cfg env reg1 m = Ok (reg1, []).
Proof.
  intros Hc. unfold check_alerts. destruct (negb (alerts_enabled cfg)).
  - intros H. injection H as <- _. reflexivity.
  - destruct (alerts_triggered cfg m) as [msgs|e]; cbn [exc_bind]; [|discriminate].
    intros H. injection H as H.
    destruct (send_alerts_holds cfg env msgs Hc reg) as [_ Hin].
    rewrite H in Hin. cbn [fst] in Hin.
    now rewrite send_alerts_all_held.
Qed.

Lemma check_alerts_repeat_witness :
  (0 < cooldown_minutes test_config)%Q /\
  check_alerts test_config (alert_env_at 0) ∅ breaching_snapshot =
    Ok (fst (send_alerts test_config (alert_env_at 0) ∅
              ["High CPU usage: 85.0% (threshold: 80%)";
               "High memory usage: 90.0% (threshold: 85%)";
               "High disk usage on /: 95.0% (threshold: 90%)";
               "High swap usage: 60.0% (threshold: 50%)"]),
        snd (send_alerts test_config (alert_env_at 0) ∅
              ["High CPU usage: 85.0% (threshold: 80%)";
               "High memory usage: 90.0% (threshold: 85%)";
               "High disk usage on /: 95.0% (threshold: 90%)";
               "High swap usage: 60.0% (threshold: 50%)"])) /\
  check_alerts test_config (alert_env_at 0)
    (fst (send_alerts test_config (alert_env_at 0) ∅
              ["High CPU usage: 85.0% (threshold: 80%)";
               "High memory usage: 90.0% (threshold: 85%)";
               "High disk usage on /: 95.0% (threshold: 90%)";
               "High swap usage: 60.0% (threshold: 50%)"])) breaching_snapshot =
    Ok (fst (send_alerts test_config (alert_env_at 0) ∅
              ["High CPU usage: 85.0% (threshold: 80%)";
               "High memory usage: 90.0% (threshold: 85%)";
               "High disk usage on /: 95.0% (threshold: 90%)";
               "High swap usage: 60.0% (threshold: 50%)"]), []).
Proof.
  assert (Hc : (0 < cooldown_minutes test_config)%Q) by reflexivity.
  assert (H : check_alerts test_config (alert_env_at 0) ∅ breaching_snapshot =
    Ok (fst (send_alerts test_config (alert_env_at 0) ∅
              ["High CPU usage: 85.0% (threshold: 80%)";
               "High memory usage: 90.0% (threshold: 85%)";
               "High disk usage on /: 95.0% (threshold: 90%)";
               "High swap usage: 60.0% (threshold: 50%)"]),
        snd (send_alerts test_config (alert_env_at 0) ∅
              ["High CPU usage: 85.0% (threshold: 80%)";
               "High memory usage: 90.0% (threshold: 85%)";
               "High disk usage on /: 95.0% (threshold: 90%)";
               "High swap usage: 60.0% (threshold: 50%)"]))) by (vm_compute; reflexivity).
  split; [exact Hc|]. split; [exact H|]. exact (check_alerts_repeat _ _ _ _ _ _ Hc H).
Defined.

Lemma channel_counts (cfg : config) (env : alert_env) (message : string)
    (channels : list string) :
  length (List.filter is_email_alert
            (concat (map (channel_events cfg env message) channels))) =
    length (List.filter (String.eqb "email") channels) /\
  length (List.filter is_slack_post
            (concat (map (channel_events cfg env message) channels))) =
    (match slack_webhook_url cfg, ae_nodename env with
     | Some _, Ok _ => length (List.filter (String.eqb "slack") channels)
     | _, _ => 0
     end)%nat.
Proof.
  induction channels as [|ch chs [IH1 IH2]]; [split; destruct (slack_webhook_url cfg), (ae_nodename env); reflexivity|].
  cbn [map concat]. rewrite !List.filter_app, !length_app, IH1, IH2.
  unfold channel_events.
  destruct (String.eqb ch "slack") eqn:Es.
  - apply String.eqb_eq in Es. subst ch. cbn [List.filter String.eqb].
    unfold send_slack_alert.
    destruct (slack_webhook_url cfg) as [url|], (ae_nodename env) as [node|e];
      try destruct (exc_bind _ _); cbn; split; reflexivity.
  - destruct (String.eqb ch "email") eqn:Ee.
    + apply String.eqb_eq in Ee. subst ch. cbn. split; [reflexivity|].
      destruct (slack_webhook_url cfg), (ae_nodename env); reflexivity.
    + assert (Hs : String.eqb "slack" ch = false) by (now rewrite String.eqb_sym).
      assert (He : String.eqb "email" ch = false) by (now rewrite String.eqb_sym).
      cbn [List.filter]. rewrite Hs, He. cbn. split; [reflexivity|].
      destruct (slack_webhook_url cfg), (ae_nodename env); reflexivity.
Qed.

(** Extra ([_send_alert], [_send_slack_alert], [_send_email_alert]):
    an alert that fires produces one email event per [email] entry of the
    channel list, and one Slack POST per [slack] entry when a webhook URL is
    configured and the host name is known, none otherwise; a failing channel
    does not stop the others. *)
Theorem send_alert_channels (cfg : config) (env : alert_env) (reg : registry)
    (message : string) :
  snd (send_alert cfg env reg message) <> [] ->
  length (List.filter is_email_alert (snd (send_alert cfg env reg message))) =
    length (List.filter (String.eqb "email") (alert_channels cfg)) /\
  length (List.filter is_slack_post (snd (send_alert cfg env reg message))) =
    (match slack_webhook_url cfg, ae_nodename env with
     | Some _, Ok _ => length (List.filter (String.eqb "slack") (alert_channels cfg))
     | _, _ => 0
     end)%nat.
Proof.
  intros Hne.
  assert (Hf : snd (send_alert cfg env reg message) =
               EvAlert message :: concat (map (channel_events cfg env message)
                                                (alert_channels cfg))).
  { destruct (send_alert_cases cfg env reg message) as [[_ ->]|[_ E]]; [reflexivity|].
    rewrite E in Hne. now destruct Hne. }
  rewrite Hf. cbn [List.filter is_email_alert is_slack_post].
  apply channel_counts.
Qed.

Lemma send_alert_channels_witness :
  snd (send_alert (config_with_alerting test_config (thresholds test_config)
                     ["slack"; "email"; "log"] (Some "https://hooks.slack.test/T0"))
         slack_down_env ∅ cpu_alert_85) <> [] /\
  (length (List.filter is_email_alert
     (snd (send_alert (config_with_alerting test_config (thresholds test_config)
                         ["slack"; "email"; "log"] (Some "https://hooks.slack.test/T0"))
             slack_down_env ∅ cpu_alert_85))) =
     length (List.filter (String.eqb "email") ["slack"; "email"; "log"]) /\
   length (List.filter is_slack_post
     (snd (send_alert (config_with_alerting test_config (thresholds test_config)
                         ["slack"; "email"; "log"] (Some "https://hooks.slack.test/T0"))
             slack_down_env ∅ cpu_alert_85))) =
     length (List.filter (String.eqb "slack") ["slack"; "email"; "log"])).
Proof.
  assert (H : snd (send_alert (config_with_alerting test_config (thresholds test_config)
                     ["slack"; "email"; "log"] (Some "https://hooks.slack.test/T0"))
         slack_down_env ∅ cpu_alert_85) <> []) by (vm_compute; discriminate).
  split; [exact H|]. exact (send_alert_channels _ _ _ _ H).
Defined.

Lemma family_check_missing_percent (th : list (string * num)) (m c : dict)
    (fam what : string) :
  dict_get m fam = Some (PDict c) -> dict_get c "percent" = None ->
  family_check th m fam what = Ok (missing_percent_alert th fam what).
Proof.
  intros Hm Hc. unfold family_check, missing_percent_alert. rewrite Hm.
  destruct (threshold_get th fam) as [t|]; [|reflexivity].
  cbn [exc_bind py_get]. unfold dict_get_default. rewrite Hc. reflexivity.
Qed.

Lemma success_alerts (cfg : config) (p : provider) (h : string) (m : dict) :
  collect_body cfg p h = Ok m ->
  alerts_triggered cfg m =
    Ok (missing_percent_alert (thresholds cfg) "cpu" "CPU" ++
        missing_percent_alert (thresholds cfg) "memory" "memory" ++
        missing_percent_alert (thresholds cfg) "swap" "swap")%list.
Proof.
  intros Hb.
  destruct (collect_body_shape cfg p h m Hb)
    as [[c1 [H1 H1']] [[c2 [H2 H2']] [[c3 [H3 H3']] [[fs [io H4]] _]]]].
  unfold alerts_triggered.
  rewrite (family_check_missing_percent _ _ _ _ _ H1 H1'),
    (family_check_missing_percent _ _ _ _ _ H2 H2'),
    (disk_check_filesystems_dict _ _ _ _ H4),
    (family_check_missing_percent _ _ _ _ _ H3 H3').
  reflexivity.
Qed.

(** Extra ([check_alerts] on a successful snapshot): the cpu, memory and
    swap sub-dicts have no [percent] key, so their checks compare 0 with the
    threshold, and the disk check reads no filesystem; the alerts are exactly
    the cpu, memory and swap ones whose threshold is negative. *)
Theorem success_snapshot_alerts (cfg : config) (p : provider) (h : string) (m : dict) :
  collect_body cfg p h = Ok m ->
  alerts_triggered cfg m =
    Ok (missing_percent_alert (thresholds cfg) "cpu" "CPU" ++
        missing_percent_alert (thresholds cfg) "memory" "memory" ++
        missing_percent_alert (thresholds cfg) "swap" "swap")%list.
Proof. apply success_alerts. Qed.

Lemma success_snapshot_alerts_witness :
  collect_body (config_with_alerting test_config [("cpu", NInt (-1)); ("disk", NInt (-1))]
                  ["log"] None)
    (sample_provider sample_time) "test-host" = Ok sample_snapshot /\
  alerts_triggered (config_with_alerting test_config [("cpu", NInt (-1)); ("disk", NInt (-1))]
                      ["log"] None) sample_snapshot =
    Ok (missing_percent_alert [("cpu", NInt (-1)); ("disk", NInt (-1))] "cpu" "CPU" ++
        missing_percent_alert [("cpu", NInt (-1)); ("disk", NInt (-1))] "memory" "memory" ++
        missing_percent_alert [("cpu", NInt (-1)); ("disk", NInt (-1))] "swap" "swap")%list.
Proof.
  assert (H : collect_body (config_with_alerting test_config
                              [("cpu", NInt (-1)); ("disk", NInt (-1))] ["log"] None)
                (sample_provider sample_time) "test-host" = Ok sample_snapshot)
    by (vm_compute; reflexivity).
  split; [exact H|]. exact (success_snapshot_alerts _ _ _ _ H).
Defined.

(** Extra ([collect_metrics] then [check_alerts], as in [main --test] and
    [send_metrics]): once the host name is known, checking the collected
    snapshot never raises, whether it is a success or an error snapshot. *)
Theorem check_alerts_collected_total (cfg : config) (env : alert_env) (reg : registry)
    (p : provider) (hi : string) :
  p_uname p = Ok hi ->
  exists reg' aevs, check_alerts cfg env reg (collected cfg p) = Ok (reg', aevs).
Proof.
  intros Hu. unfold collected, collect_metrics. rewrite Hu. cbn [exc_bind].
  unfold check_alerts. destruct (negb (alerts_enabled cfg)); [eauto|].
  destruct (collect_body cfg p hi) as [m|e] eqn:Eb.
  - rewrite (success_alerts _ _ _ _ Eb). cbn [exc_bind].
    destruct (send_alerts cfg env reg _) as [r evs]. eauto.
  - unfold alerts_triggered, family_check, disk_check. cbn.
    destruct (threshold_get (thresholds cfg) "cpu"), (threshold_get (thresholds cfg) "memory"),
      (threshold_get (thresholds cfg) "disk"), (threshold_get (thresholds cfg) "swap");
      cbn; eauto.
Qed.

Lemma check_alerts_collected_total_witness :
  p_uname sensor_failure_provider = Ok "test-host" /\
  exists reg' aevs, check_alerts test_config quiet_alert_env ∅
                      (collected test_config sensor_failure_provider) = Ok (reg', aevs).
Proof.
  assert (H : p_uname sensor_failure_provider = Ok "test-host") by reflexivity.
  split; [exact H|]. exact (check_alerts_collected_total _ _ _ _ _ H).
Defined.

Lemma insert_desc_perm (x : dict) (l : list dict) :
  Permutation (insert_desc x l) (x :: l).
Proof.
  induction l as [|y l IH]; cbn [insert_desc]; [reflexivity|].
  destruct (Qlt_bool (proc_key y) (proc_key x)); [reflexivity|].
  rewrite IH. apply perm_swap.
Qed.

Lemma insert_desc_hd (x y : dict) (l : list dict) :
  HdRel desc_key y l -> desc_key y x -> HdRel desc_key y (insert_desc x l).
Proof.
  intros Hl Hyx. destruct l as [|z l]; cbn [insert_desc]; [now constructor|].
  destruct (Qlt_bool (proc_key z) (proc_key x)); [now constructor|].
  inversion Hl; subst. now constructor.
Qed.

Lemma insert_desc_sorted (x : dict) (l : list dict) :
  Sorted desc_key l -> Sorted desc_key (insert_desc x l).
Proof.
  induction l as [|y l IH]; intros Hs; cbn [insert_desc]; [now repeat constructor|].
  destruct (Qlt_bool (proc_key y) (proc_key x)) eqn:E.
  - constructor; [exact Hs|]. constructor. apply Qlt_bool_iff in E.
    unfold desc_key. now apply Qlt_le_weak.
  - inversion Hs; subst. constructor; [now apply IH|].
    apply insert_desc_hd; [assumption|]. now apply Qlt_bool_false in E.
Qed.

Lemma sort_desc_acc (l acc : list dict) :
  Sorted desc_key acc ->
  Permutation (fold_left (fun acc x => insert_desc x acc) l acc) (l ++ acc) /\
  Sorted desc_key (fold_left (fun acc x => insert_desc x acc) l acc).
Proof.
  revert acc. induction l as [|x l IH]; intros acc Hs; cbn [fold_left app]; [split; auto|].
  destruct (IH (insert_desc x acc) (insert_desc_sorted x acc Hs)) as [Hp Hs'].
  split; [|exact Hs'].
  rewrite Hp, insert_desc_perm. symmetry. apply Permutation_middle.
Qed.

Lemma sort_desc_spec (l : list dict) :
  Permutation l (sort_desc l) /\ StronglySorted desc_key (sort_desc l).
Proof.
  destruct (sort_desc_acc l [] (Sorted_nil _)) as [Hp Hs].
  unfold sort_desc. rewrite app_nil_r in Hp. split; [now symmetry|].
  apply Sorted_StronglySorted; [|exact Hs].
  intros a b c Hab Hbc. unfold desc_key in *. eapply Qle_trans; eassumption.
Qed.

Lemma proc_filter_kept (procs : list (Exc dict)) (kept : list dict) :
  proc_filter procs = Ok kept ->
  forall info, In info kept -> In (Ok info) procs /\ active_proc info.
Proof.
  revert kept. induction procs as [|r rest IH]; intros kept H info Hin.
  - injection H as <-. destruct Hin.
  - cbn [proc_filter] in H. destruct r as [i|e].
    + unfold dict_index in H.
      destruct (dict_get i "cpu_percent") as [c|] eqn:Ec; [|discriminate].
      cbn [exc_bind] in H. unfold py_gt in H.
      destruct (py_num c) as [qc|] eqn:Eqc; [|discriminate]. cbn [exc_bind] in H.
      destruct (Qlt_bool (num_val (NInt 0)) qc) eqn:Elt.
      * cbn [exc_bind] in H. destruct (proc_filter rest) as [tl|] eqn:Et; [|discriminate].
        cbn [exc_bind] in H. injection H as <-. destruct Hin as [<-|Hin].
        -- split; [now left|]. exists c. split; [exact Ec|]. exists qc.
           split; [exact Eqc|]. left. now apply Qlt_bool_iff in Elt.
        -- destruct (IH tl eq_refl info Hin). split; [now right|assumption].
      * destruct (dict_get i "memory_percent") as [mv|] eqn:Em; [|discriminate].
        cbn [exc_bind] in H. destruct (py_num mv) as [qm|] eqn:Eqm; [|discriminate].
        cbn [exc_bind] in H. destruct (proc_filter rest) as [tl|] eqn:Et; [|discriminate].
        cbn [exc_bind] in H. injection H as <-.
        destruct (Qlt_bool _ qm) eqn:Em'; cbn [num_val] in Em'.
        -- destruct Hin as [<-|Hin].
           ++ split; [now left|]. exists c. split; [exact Ec|]. exists qc.
              split; [exact Eqc|]. right. exists mv. split; [exact Em|].
              exists qm. split; [exact Eqm|]. now apply Qlt_bool_iff in Em'.
           ++ destruct (IH tl eq_refl info Hin). split; [now right|assumption].
        -- destruct (IH tl eq_refl info Hin). split; [now right|assumption].
    + destruct (is_proc_gone (exn_cls e)); [|discriminate].
      destruct (IH kept H info Hin). split; [now right|assumption].
Qed.

(** Extra (process section of [collect_metrics], lines 265-283): the
    [top_processes] list is the first 10 of a permutation of the kept
    processes sorted by non-increasing [cpu_percent]; a kept process comes
    from the scan and has [cpu_percent > 0] or [memory_percent > 0]. *)
Theorem top_processes_spec (p : provider) (l : list dict) :
  top_processes p = Ok l ->
  exists procs kept s,
    p_process_iter p = Ok procs /\ proc_filter procs = Ok kept /\
    (forall info, In info kept -> In (Ok info) procs /\ active_proc info) /\
    Permutation kept s /\ StronglySorted desc_key s /\ l = firstn 10 s.
Proof.
  unfold top_processes. destruct (p_process_iter p) as [procs|]; [|discriminate].
  cbn [exc_bind]. destruct (proc_filter procs) as [kept|] eqn:Ek; [|discriminate].
  cbn [exc_bind]. intros H. injection H as <-.
  destruct (sort_desc_spec kept) as [Hp Hs].
  exists procs, kept, (sort_desc kept).
  repeat split; try assumption; try reflexivity; now apply (proc_filter_kept procs kept Ek).
Qed.

Lemma top_processes_spec_witness :
  top_processes process_provider =
    Ok (map (fun i => proc_info i (inject_Z i) 1) [13; 12; 11; 10; 9; 8; 7; 6; 5; 4]%Z) /\
  exists procs kept s,
    p_process_iter process_provider = Ok procs /\ proc_filter procs = Ok kept /\
    (forall info, In info kept -> In (Ok info) procs /\ active_proc info) /\
    Permutation kept s /\ StronglySorted desc_key s /\
    map (fun i => proc_info i (inject_Z i) 1) [13; 12; 11; 10; 9; 8; 7; 6; 5; 4]%Z = firstn 10 s.
Proof.
  assert (H : top_processes process_provider =
    Ok (map (fun i => proc_info i (inject_Z i) 1) [13; 12; 11; 10; 9; 8; 7; 6; 5; 4]%Z))
    by (vm_compute; reflexivity).
  split; [exact H|]. exact (top_processes_spec _ _ H).
Defined.

Lemma dict_set_missing (d : dict) (k : string) (v : pyval) :
  dict_has d k = false -> dict_set d k v = (d ++ [(k, v)])%list.
Proof.
  unfold dict_has. induction d as [|[k' v'] d IH]; intros H; [reflexivity|].
  cbn [dict_get] in H. cbn [dict_set app].
  destruct (String.eqb k k'); [discriminate|]. now rewrite IH.
Qed.

Lemma dict_has_app (d e : dict) (k : string) :
  dict_has (d ++ e)%list k = dict_has d k || dict_has e k.
Proof.
  unfold dict_has. induction d as [|[k' v'] d IH]; [reflexivity|].
  cbn [dict_get app]. destruct (String.eqb k k'); [reflexivity|exact IH].
Qed.

(** Extra ([_load_config]): for an existing file holding a mapping, the
    first missing section among endpoint, interval_seconds and thresholds
    makes it print [Error loading configuration: Missing required
    configuration section: <name>] and exit; otherwise it returns the mapping
    with the default [alerts] and [metrics] sections appended where absent. *)
Theorem load_config_dict (path : string) (d : dict) :
  load_config path true (Ok (PDict d)) =
  match List.find (fun s => negb (dict_has d s)) required_sections with
  | Some s => Exited ("Error loading configuration: Missing required configuration section: " ++ s)
  | None => Loaded (PDict (d ++ (if dict_has d "alerts" then [] else [("alerts", default_alerts)]) ++
                              (if dict_has d "metrics" then [] else [("metrics", default_metrics)]))%list)
  end.
Proof.
  unfold load_config, load_config_body, required_sections.
  cbn [negb exc_bind check_sections py_contains List.find].
  destruct (dict_has d "endpoint"); [|reflexivity]. cbn [exc_bind List.find negb].
  destruct (dict_has d "interval_seconds"); [|reflexivity]. cbn [exc_bind].
  destruct (dict_has d "thresholds"); [|reflexivity]. cbn [exc_bind py_setdefault].
  destruct (dict_has d "alerts") eqn:Ea; cbn [exc_bind py_setdefault].
  - destruct (dict_has d "metrics") eqn:Em.
    + now rewrite app_nil_r.
    + now rewrite dict_set_missing.
  - rewrite (dict_set_missing _ _ _ Ea), dict_has_app. cbn [app].
    destruct (dict_has d "metrics") eqn:Em; cbn [orb].
    + now rewrite ?app_nil_r.
    + rewrite dict_set_missing by (rewrite dict_has_app; now rewrite Em).
      now rewrite <- app_assoc.
Qed.

(** [key in config] on a mapping is the key lookup: the section check
    passes on a mapping only when it holds every section. *)
Lemma check_sections_present (d : dict) (secs : list string) (u : unit) :
  check_sections (PDict d) secs = Ok u -> Forall (fun s => dict_has d s = true) secs.
Proof.
  induction secs as [|sec secs IH]; cbn [check_sections py_contains exc_bind]; intros H.
  - constructor.
  - destruct (dict_has d sec) eqn:Eh; [|discriminate].
    constructor; [exact Eh|exact (IH H)].
Qed.

(** Extra ([_load_config]): it returns only for an existing file whose
    YAML document is a mapping holding the three required sections; the
    result keeps that mapping and only adds the keys alerts and metrics.
    A missing file, invalid YAML, an empty file or any other document exits:
    whatever [in] answers on a document that is not a mapping, such a
    document has no [setdefault] method. *)
Theorem load_config_loaded (path : string) (file_exists : bool) (document : Exc pyval)
    (config : pyval) :
  load_config path file_exists document = Loaded config ->
  file_exists = true /\
  exists d, document = Ok (PDict d) /\
    Forall (fun s => dict_has d s = true) required_sections /\
    exists extra, config = PDict (d ++ extra)%list /\
    forall k, dict_has (d ++ extra)%list k = dict_has d k || String.eqb k "alerts" || String.eqb k "metrics".
Proof.
  unfold load_config, load_config_body.
  destruct file_exists; cbn [negb]; [|discriminate].
  destruct document as [v|e]; cbn [exc_bind]; [|discriminate].
  destruct (check_sections v required_sections) as [u|e] eqn:Ec; cbn [exc_bind];
    [|discriminate].
  destruct v as [| | | | | |d]; cbn [py_setdefault exc_bind]; try discriminate.
  apply check_sections_present in Ec.
  - intros H. split; [reflexivity|]. exists d. split; [reflexivity|].
    split; [exact Ec|].
    destruct (dict_has d "alerts") eqn:Ea; cbn [exc_bind py_setdefault] in H.
    + destruct (dict_has d "metrics") eqn:Em; injection H as <-.
      * exists []. rewrite app_nil_r. split; [reflexivity|]. intros k.
        destruct (String.eqb k "alerts") eqn:Ka; [apply String.eqb_eq in Ka; subst; now rewrite Ea|].
        destruct (String.eqb k "metrics") eqn:Km; [apply String.eqb_eq in Km; subst; now rewrite Em|].
        now rewrite !orb_false_r.
      * rewrite dict_set_missing by exact Em. exists [("metrics", default_metrics)].
        split; [reflexivity|]. intros k. rewrite dict_has_app. unfold dict_has at 2. cbn [dict_get].
        destruct (String.eqb k "alerts") eqn:Ka; [apply String.eqb_eq in Ka; subst; now rewrite Ea|].
        destruct (String.eqb k "metrics"); now rewrite ?orb_false_r, ?orb_true_r.
    + rewrite (dict_set_missing _ _ _ Ea), dict_has_app in H.
      unfold dict_has at 2 in H. cbn [dict_get String.eqb] in H.
      rewrite orb_false_r in H.
      destruct (dict_has d "metrics") eqn:Em; cbn [exc_bind py_setdefault] in H; injection H as <-.
      * exists [("alerts", default_alerts)]. split; [reflexivity|]. intros k.
        rewrite dict_has_app. unfold dict_has at 2. cbn [dict_get].
        destruct (String.eqb k "alerts"); [now rewrite ?orb_true_r|].
        destruct (String.eqb k "metrics") eqn:Km; [apply String.eqb_eq in Km; subst; now rewrite Em|].
        now rewrite ?orb_false_r.
      * rewrite dict_set_missing by (rewrite dict_has_app; now rewrite Em).
        exists [("alerts", default_alerts); ("metrics", default_metrics)].
        rewrite <- app_assoc. split; [reflexivity|]. intros k.
        rewrite dict_has_app. unfold dict_has at 2. cbn [dict_get].
        destruct (String.eqb k "alerts"); [now rewrite ?orb_true_r|].
        destruct (String.eqb k "metrics"); now rewrite ?orb_true_r, ?orb_false_r.
Qed.

Lemma load_config_loaded_witness :
  load_config "config.yaml" true (Ok (PDict sample_yaml)) =
    Loaded (PDict (sample_yaml ++ [("alerts", default_alerts)])%list) /\
  (true = true /\
   exists d, Ok (PDict sample_yaml) = Ok (PDict d) /\
     Forall (fun s => dict_has d s = true) required_sections /\
     exists extra, PDict (sample_yaml ++ [("alerts", default_alerts)])%list = PDict (d ++ extra)%list /\
     forall k, dict_has (d ++ extra)%list k = dict_has d k || String.eqb k "alerts" || String.eqb k "metrics").
Proof.
  assert (H : load_config "config.yaml" true (Ok (PDict sample_yaml)) =
    Loaded (PDict (sample_yaml ++ [("alerts", default_alerts)])%list)) by (vm_compute; reflexivity).
  split; [exact H|]. exact (load_config_loaded _ _ _ _ H).
Defined.
